(** * nuts: request handlers of the release server (lib/nuts.js)

    A shallow embedding of the route handlers of [lib/nuts.js] and of the
    GitHub backend's [getAssetStream] (lib/backends/github.js).

    A handler is a promise chain over the request.  It is embedded as a
    function from the asset cache to the ordered list of effects the chain
    performs (calls on [this.versions], on [this.backend], on [this.cache]
    and on the response object, and the final [next(err)]), the cache
    afterwards and the value the chain settles with. *)

From stdpp Require Import base option list gmap strings.
From Stdlib Require Import NArith ZArith Ascii String DecimalString.

Local Open Scope string_scope.
Local Open Scope list_scope.

(** ** JavaScript values the handlers touch *)

Module Js.

(** A route or query parameter: a string, or [undefined]/[null]. *)
Definition value := option string.

(** [!v] is true for [undefined], [null] and the empty string. *)
Definition truthy (v : value) : bool :=
  match v with
  | Some s => negb (String.eqb s EmptyString)
  | None => false
  end.

(** [a || b] on a parameter and a string literal. *)
Definition or_default (v : value) (d : string) : string :=
  match v with
  | Some s => if String.eqb s EmptyString then d else s
  | None => d
  end.

(** String conversion of a variable holding a string or [null]. *)
Definition concat_null (v : value) : string :=
  match v with
  | Some s => s
  | None => "null"
  end.

(** String conversion of a variable holding a string or [undefined]. *)
Definition concat_undefined (v : value) : string :=
  match v with
  | Some s => s
  | None => "undefined"
  end.

(** [new Error(msg)], and the [ReferenceError] raised when an unbound
    identifier is evaluated. *)
Inductive error :=
| Error (message : string)
| ReferenceError (message : string).

(** A settled promise. *)
Inductive settled (A : Type) :=
| Fulfilled (a : A)
| Rejected (e : error).
Arguments Fulfilled {A} a.
Arguments Rejected {A} e.

(** The double quote character, for messages that quote a name. *)
Definition dq : string := String "034"%char EmptyString.

End Js.

Export Js(error(..), settled(..)).

#[global] Instance error_eq_dec : EqDecision Js.error.
Proof. solve_decision. Defined.

#[global] Instance settled_eq_dec `{EqDecision A} : EqDecision (Js.settled A).
Proof. solve_decision. Defined.

(** ** Data model *)

(** The bytes of an asset, as a stream delivers them. *)
Abbreviation Bytes := (list Byte.byte).

(** An entry of [version.platforms]: [asset.id] is the cache key,
    [asset.raw.url] the locator the GitHub backend fetches. *)
Record Asset := mkAsset {
  id : N;
  type : string;
  filename : string;
  size : N;
  raw_url : string
}.

(** A version object as [this.versions] hands it out. *)
Record Release := mkRelease {
  tag : string;
  channel : string;
  platforms : list Asset;
  notes : string;
  published_at : Z
}.

(** The argument of [versions.resolve] and [versions.filter]. *)
Record Query := mkQuery {
  q_channel : Js.value;
  q_platform : Js.value;
  q_tag : string
}.

(** An entry of a parsed RELEASES file; the handler reads [semver] and
    [filename] and writes [filename]. *)
Record Entry := mkEntry {
  sha : string;
  e_filename : string;
  e_size : N;
  semver : string
}.

(** [req.params], [req.query], [req.useragent] and the parts of the
    request [getFullUrl] reads. *)
Record Params := mkParams {
  p_channel : Js.value;
  p_platform : Js.value;
  p_tag : Js.value;
  p_filename : Js.value;
  p_version : Js.value
}.

Record QueryString := mkQueryString {
  qs_filetype : Js.value;
  qs_version : Js.value;
  qs_platform : Js.value
}.

Record UserAgent := mkUserAgent {
  isMac : bool;
  isWindows : bool;
  isLinux : bool;
  isLinux64 : bool
}.

Record Request := mkRequest {
  params : Params;
  query : QueryString;
  useragent : UserAgent;
  protocol : string;
  host : string;
  originalUrl : string
}.

(** The object sent by the Mac-style update check. *)
Record UpdateInfo := mkUpdateInfo {
  u_url : string;
  u_name : string;
  u_notes : string;
  u_pub_date : string
}.

Inductive Body :=
| Text (s : string)
| Json (u : UpdateInfo).

Inductive HeaderValue :=
| HNum (n : N)
| HStr (s : string).

(** The effects of a handler, in the order it performs them. *)
Inductive Event :=
| EvResolve (q : Query)                  (* this.versions.resolve(q) *)
| EvFilter (q : Query)                   (* this.versions.filter(q) *)
| EvGetAssetStream (a : Asset)           (* this.backend.getAssetStream(a) *)
| EvReadAsset (a : Asset)                (* this.backend.readAsset(a) *)
| EvCacheGetStream (key : N)             (* this.cache.getStream(key) *)
| EvCacheSet (key : N) (stream : Bytes)  (* this.cache.set(key, stream) *)
| EvHeader (name : string) (v : HeaderValue)
| EvAttachment (name : string)
| EvStatus (code : N)
| EvSend (b : Body)
| EvRedirect (location : string)
| EvPipe (stream : Bytes)                (* stream.pipe(res) *)
| EvNext (e : Js.error).                 (* next(err) *)

#[global] Instance byte_eq_dec : EqDecision Byte.byte.
Proof. intros x y. destruct (Byte.byte_eq_dec x y); [left|right]; assumption. Defined.
#[global] Instance Asset_eq_dec : EqDecision Asset.
Proof. solve_decision. Defined.
#[global] Instance Release_eq_dec : EqDecision Release.
Proof. solve_decision. Defined.
#[global] Instance Query_eq_dec : EqDecision Query.
Proof. solve_decision. Defined.
#[global] Instance Entry_eq_dec : EqDecision Entry.
Proof. solve_decision. Defined.
#[global] Instance UpdateInfo_eq_dec : EqDecision UpdateInfo.
Proof. solve_decision. Defined.
#[global] Instance Body_eq_dec : EqDecision Body.
Proof. solve_decision. Defined.
#[global] Instance HeaderValue_eq_dec : EqDecision HeaderValue.
Proof. solve_decision. Defined.
#[global] Instance Event_eq_dec : EqDecision Event.
Proof. solve_decision. Defined.

(** ** Collaborators

    What [lib/nuts.js] requires and calls but does not define: the release
    index ([./versions]), the platform utilities ([./utils/platforms]), the
    notes merger ([./utils/notes]), the RELEASES codec
    ([./utils/win-releases]), node's [url.resolve] and [Date.toISOString],
    the backend selected at construction time and the interceptors
    registered on the ['download'] hook.  The handlers are embedded over an
    arbitrary environment of them. *)

(** The object handed to the ['download'] interceptors:
    [{req, version, platform: asset}]. *)
Record HookArg := mkHookArg {
  h_req : Request;
  h_version : Release;
  h_platform : Asset
}.

Record World := mkWorld {
  (* this.versions *)
  versions_resolve : Query -> settled Release;
  versions_filter : Query -> settled (list Release);
  (* platforms *)
  OSX : string;
  WINDOWS : string;
  LINUX : string;
  LINUX_64 : string;
  platforms_detect : string -> string;
  platforms_resolve : Release -> Js.value -> Js.value -> option Asset;
  (* notes.merge(versions, {includeTag}) *)
  notes_merge : list Release -> bool -> string;
  (* winReleases *)
  winReleases_parse : string -> settled (list Entry);
  winReleases_generate : list Entry -> string;
  (* url.resolve(from, to), date.toISOString(), buffer.toString('utf-8') *)
  url_resolve : string -> string -> string;
  toISOString : Z -> string;
  toString_utf8 : Bytes -> string;
  (* this.backend *)
  backend_getAssetStream : Asset -> settled Bytes;
  backend_readAsset : Asset -> settled Bytes;
  (* interceptors of this.perform('download', ...) *)
  before_download : HookArg -> settled unit;
  after_download : HookArg -> settled unit
}.

(** ** Promise chains *)

(** [this.cache], an [lru-diskcache]: the stored stream of each key it
    holds.  The library bounds the cache by size and age and completes a
    [set] when the stream has been written; neither is modelled: the
    model says which calls the handlers make on the cache, and what a key
    answers once stored and for as long as the library keeps it. *)
Abbreviation Cache := (gmap N Bytes).

Record Run (A : Type) := mkRun {
  effects : list Event;
  cache_after : Cache;
  outcome : settled A
}.
Arguments mkRun {A} effects cache_after outcome.
Arguments effects {A} r.
Arguments cache_after {A} r.
Arguments outcome {A} r.

Definition Promise (A : Type) : Type := Cache -> Run A.

(** [Q(a)] *)
Definition fulfil {A} (a : A) : Promise A :=
  fun c => mkRun [] c (Fulfilled a).

(** [throw e] inside a callback *)
Definition throw {A} (e : Js.error) : Promise A :=
  fun c => mkRun [] c (Rejected e).

(** [p.then(f)] *)
Definition then_ {A B} (p : Promise A) (f : A -> Promise B) : Promise B :=
  fun c =>
    let r := p c in
    match outcome r with
    | Fulfilled a =>
        let r' := f a (cache_after r) in
        mkRun (effects r ++ effects r') (cache_after r') (outcome r')
    | Rejected e => mkRun (effects r) (cache_after r) (Rejected e)
    end.

(** [p.fail(h)] *)
Definition fail_ {A} (p : Promise A) (h : Js.error -> Promise A) : Promise A :=
  fun c =>
    let r := p c in
    match outcome r with
    | Fulfilled a => r
    | Rejected e =>
        let r' := h e (cache_after r) in
        mkRun (effects r ++ effects r') (cache_after r') (outcome r')
    end.

(** One effect that settles at once with a known value. *)
Definition call {A} (ev : Event) (r : settled A) : Promise A :=
  fun c => mkRun [ev] c r.

Definition effect (ev : Event) : Promise unit := call ev (Fulfilled tt).

(** The outcome of a collaborator that leaves no effect of its own. *)
Definition settle {A} (r : settled A) : Promise A :=
  fun c => mkRun [] c r.

(** [p.fail(next)] *)
Definition fail_next {A} (p : Promise A) : Promise unit :=
  fun c =>
    let r := p c in
    match outcome r with
    | Fulfilled _ => mkRun (effects r) (cache_after r) (Fulfilled tt)
    | Rejected e => mkRun (effects r ++ [EvNext e]) (cache_after r) (Fulfilled tt)
    end.

(** [this.cache.has(key)] *)
Definition cache_has (key : N) : Promise bool :=
  fun c => mkRun [] c (Fulfilled (bool_decide (is_Some (c !! key)))).

(** [this.cache.getStream(key)] *)
Definition cache_getStream (key : N) : Promise Bytes :=
  fun c =>
    mkRun [EvCacheGetStream key] c
      (match c !! key with
       | Some stream => Fulfilled stream
       | None => Rejected (Error "Key not found")
       end).

(** [this.cache.set(key, stream)] *)
Definition cache_set (key : N) (stream : Bytes) : Promise unit :=
  fun c => mkRun [EvCacheSet key stream] (<[key := stream]> c) (Fulfilled tt).

Declare Scope promise_scope.
Delimit Scope promise_scope with promise.
Notation "'let*' x ':=' p 'in' k" := (then_ p (fun x => k))
  (at level 10, x name, p at level 100, k at level 200) : promise_scope.
Notation "p '>>' k" := (then_ p (fun _ => k))
  (at level 65, right associativity) : promise_scope.
Local Open Scope promise_scope.

(** ** lib/nuts.js *)

(** [getFullUrl(req)] *)
Definition getFullUrl (req : Request) : string :=
  protocol req +:+ "://" +:+ host req +:+ originalUrl req.

(** [Nuts.prototype.performQ] on the ['download'] hook: the interceptors
    registered before it, the promised function, the interceptors
    registered after it. *)
Definition performQ (W : World) (arg : HookArg) (fn : Promise unit)
  : Promise unit :=
  let* _ := settle (before_download W arg) in
  let* _ := fn in
  settle (after_download W arg).

(** [outputStream(stream)] inside [serveAsset] *)
Definition outputStream (stream : Bytes) : Promise unit :=
  effect (EvPipe stream).

(** The function [serveAsset] hands to [performQ]. *)
Definition serveAsset_fn (W : World) (asset : Asset) : Promise unit :=
  let cacheKey := id asset in
  effect (EvHeader "Content-Length" (HNum (size asset))) >>
  effect (EvAttachment (filename asset)) >>
  let* has := cache_has cacheKey in
  if has then
    (* Key exists *)
    let* stream := cache_getStream cacheKey in
    outputStream stream
  else
    let* stream := call (EvGetAssetStream asset) (backend_getAssetStream W asset) in
    (* Cache the stream *)
    cache_set cacheKey stream >>
    (* Send the stream to the user *)
    outputStream stream.

(** [Nuts.prototype.serveAsset] *)
Definition serveAsset (W : World) (req : Request) (version : Release)
    (asset : Asset) : Promise unit :=
  performQ W (mkHookArg req version asset) (serveAsset_fn W asset).

(** The identifiers in scope inside [onDownload]'s callbacks: the
    module's top-level [var]s and functions, the handler's parameters and
    locals, and the callbacks' own parameters. *)
Definition onDownload_scope : list string :=
  [ "_"; "Q"; "url"; "os"; "path"; "Understudy"; "LRU"; "express";
    "useragent"; "BACKENDS"; "Versions"; "notes"; "platforms";
    "winReleases"; "API_METHODS"; "getFullUrl"; "Nuts";
    "req"; "res"; "next"; "that"; "channel"; "platform"; "tag";
    "filename"; "filetypeWanted"; "err"; "version"; "asset" ].

(** Evaluating an expression that starts with the identifier [x]. *)
Definition with_ident {A} (scope : list string) (x : string) (k : Promise A)
  : Promise A :=
  if bool_decide (x ∈ scope) then k
  else throw (ReferenceError (x +:+ " is not defined")).

(** Detect platform from useragent *)
Definition detect_useragent (W : World) (ua : UserAgent) (platform : Js.value)
  : Js.value :=
  let platform := if isMac ua then Some (OSX W) else platform in
  let platform := if isWindows ua then Some (WINDOWS W) else platform in
  let platform := if isLinux ua then Some (LINUX W) else platform in
  let platform := if isLinux64 ua then Some (LINUX_64 W) else platform in
  platform.

(** The values of [channel], [platform] and [tag] when the handler calls
    [this.versions.resolve]. *)
Definition download_platform (W : World) (req : Request) : Js.value :=
  let platform := p_platform (params req) in
  let filename := p_filename (params req) in
  (* When serving a specific file, platform is not required *)
  if negb (Js.truthy filename) then
    if negb (Js.truthy platform) then detect_useragent W (useragent req) platform
    else platform
  else None.

Definition download_tag (req : Request) : string :=
  Js.or_default (p_tag (params req)) "latest".

Definition download_channel (req : Request) : Js.value :=
  (* If specific version, don't enforce a channel *)
  if negb (String.eqb (download_tag req) "latest") then Some "*"
  else p_channel (params req).

Definition download_query (W : World) (req : Request) : Query :=
  mkQuery (download_channel req) (download_platform W req) (download_tag req).

(** [Nuts.prototype.onDownload] *)
Definition onDownload (W : World) (req : Request) : Promise unit :=
  let req_filename := p_filename (params req) in
  let filetypeWanted := qs_filetype (query req) in
  let platform := download_platform W req in
  let req_tag := download_tag req in
  let channel := download_channel req in
  if negb (Js.truthy req_filename) && negb (Js.truthy platform) then
    effect (EvNext (Error "No platform specified and impossible to detect one"))
  else
    fail_next (
      let* version :=
        fail_ (call (EvResolve (mkQuery channel platform req_tag))
                 (versions_resolve W (mkQuery channel platform req_tag)))
          (* Fallback to any channels if no version found on stable one *)
          (fun err =>
             if Js.truthy channel || negb (String.eqb req_tag "latest")
             then throw err
             else
               with_ident onDownload_scope "versions"
                 (call (EvResolve (mkQuery (Some "*") platform req_tag))
                    (versions_resolve W (mkQuery (Some "*") platform req_tag)))) in
      (* Serve downloads *)
      let asset :=
        if Js.truthy req_filename then
          List.find
            (fun a => String.eqb (filename a) (Js.concat_null req_filename))
            (platforms version)
        else
          platforms_resolve W version platform
            (if Js.truthy filetypeWanted
             then Some ("." +:+ Js.concat_null filetypeWanted) else None) in
      match asset with
      | None =>
          throw (Error ("No download available for platform "
                        +:+ Js.concat_null platform
                        +:+ " for version " +:+ tag version
                        +:+ " (" +:+ Js.or_default channel "beta" +:+ ")"))
      | Some asset =>
          (* Call analytic middleware, then serve *)
          serveAsset W req version asset
      end).

(** [Nuts.prototype.onUpdate] *)
Definition onUpdate (req : Request) : Promise unit :=
  fail_next (
    let* _ := fulfil tt in
    if negb (Js.truthy (qs_version (query req))) then
      throw (Error ("Requires " +:+ Js.dq +:+ "version" +:+ Js.dq +:+ " parameter"))
    else if negb (Js.truthy (qs_platform (query req))) then
      throw (Error ("Requires " +:+ Js.dq +:+ "platform" +:+ Js.dq +:+ " parameter"))
    else
      effect (EvRedirect ("/update/" +:+ Js.concat_null (qs_platform (query req))
                          +:+ "/" +:+ Js.concat_null (qs_version (query req))))).

(** [array.slice(0, -1)] *)
Definition slice_0_m1 {A} (l : list A) : list A := take (List.length l - 1) l.

(** [Nuts.prototype.onUpdateOSX] (Squirrel.Mac) *)
Definition onUpdateOSX (W : World) (req : Request) : Promise unit :=
  let fullUrl := getFullUrl req in
  let req_platform := p_platform (params req) in
  let req_tag := p_version (params req) in
  fail_next (
    let* versions :=
      (let* _ := fulfil tt in
       if negb (Js.truthy req_tag) then
         throw (Error ("Requires " +:+ Js.dq +:+ "version" +:+ Js.dq +:+ " parameter"))
       else if negb (Js.truthy req_platform) then
         throw (Error ("Requires " +:+ Js.dq +:+ "platform" +:+ Js.dq +:+ " parameter"))
       else
         let platform := platforms_detect W (Js.concat_null req_platform) in
         call (EvFilter (mkQuery (Some "*") (Some platform)
                           (">=" +:+ Js.concat_null req_tag)))
           (versions_filter W (mkQuery (Some "*") (Some platform)
                                 (">=" +:+ Js.concat_null req_tag)))) in
    let platform := platforms_detect W (Js.concat_null req_platform) in
    match head versions with
    | None => effect (EvStatus 204) >> effect (EvSend (Text "No updates"))
    | Some latest =>
        if String.eqb (tag latest) (Js.concat_null req_tag) then
          effect (EvStatus 204) >> effect (EvSend (Text "No updates"))
        else
          let releaseNotes := notes_merge W (slice_0_m1 versions) false in
          effect (EvStatus 200) >>
          effect (EvSend (Json {|
            u_url := url_resolve W fullUrl
                       ("/download/version/" +:+ tag latest +:+ "/" +:+ platform
                        +:+ "?filetype=zip");
            u_name := tag latest;
            u_notes := releaseNotes;
            u_pub_date := toISOString W (published_at latest) |}))
    end).

(** The [map] callback of [onUpdateWin]: change filename to use the
    download proxy. *)
Definition proxy_entry (W : World) (fullUrl : string) (entry : Entry) : Entry :=
  {| sha := sha entry;
     e_filename := url_resolve W fullUrl
                     ("/download/" +:+ semver entry +:+ "/" +:+ e_filename entry);
     e_size := e_size entry;
     semver := semver entry |}.

(** [Nuts.prototype.onUpdateWin] (Squirrel.Windows) *)
Definition onUpdateWin (W : World) (req : Request) : Promise unit :=
  let fullUrl := getFullUrl req in
  let platform := "win_32" in
  let req_tag := p_version (params req) in
  fail_next (
    let* versions :=
      (let* _ := fulfil tt in
       let platform := platforms_detect W platform in
       call (EvFilter (mkQuery (Some "*") (Some platform)
                         (">=" +:+ Js.concat_undefined req_tag)))
         (versions_filter W (mkQuery (Some "*") (Some platform)
                               (">=" +:+ Js.concat_undefined req_tag)))) in
    (* Update needed? *)
    match head versions with
    | None => throw (Error "Version not found")
    | Some latest =>
        (* File exists *)
        match List.find (fun a => String.eqb (filename a) "RELEASES")
                (platforms latest) with
        | None => throw (Error "File not found")
        | Some asset =>
            let* content := call (EvReadAsset asset) (backend_readAsset W asset) in
            let* releases := settle (winReleases_parse W (toString_utf8 W content)) in
            let releases := map (proxy_entry W fullUrl) releases in
            let output := winReleases_generate W releases in
            effect (EvHeader "Content-Length" (HNum (N.of_nat (String.length output)))) >>
            effect (EvAttachment "RELEASES") >>
            effect (EvSend (Text output))
        end
    end).

(** ** Interleaved callers of [serveAsset]

    A callback runs to completion, and the callbacks of different requests
    interleave.  The function [serveAsset] hands to [performQ] has two
    callbacks: the first one sets the headers, asks the cache whether it
    holds the key and calls either [cache.getStream] or
    [backend.getAssetStream]; the second one runs when that promise has
    settled and calls [cache.set] (on a miss) and [stream.pipe(res)]. *)

(** What a caller waits for between its two callbacks. *)
Inductive Waiting :=
| FromCache (stream : settled Bytes)
| FromBackend (key : N) (stream : settled Bytes).

Definition serve_begin (W : World) (asset : Asset) (c : Cache)
  : list Event * Waiting :=
  let cacheKey := id asset in
  let sent := [EvHeader "Content-Length" (HNum (size asset));
               EvAttachment (filename asset)] in
  if bool_decide (is_Some (c !! cacheKey)) then
    (sent ++ [EvCacheGetStream cacheKey],
     FromCache (match c !! cacheKey with
                | Some stream => Fulfilled stream
                | None => Rejected (Error "Key not found")
                end))
  else
    (sent ++ [EvGetAssetStream asset],
     FromBackend cacheKey (backend_getAssetStream W asset)).

Definition serve_resume (w : Waiting) : Promise unit :=
  match w with
  | FromCache s =>
      let* stream := settle s in
      outputStream stream
  | FromBackend cacheKey s =>
      let* stream := settle s in
      cache_set cacheKey stream >>
      outputStream stream
  end.

(** The server between callbacks: the cache, the callers that wait for
    their second callback, and the effects so far, each with its caller. *)
Record Server := mkServer {
  srv_cache : Cache;
  srv_waiting : gmap nat Waiting;
  srv_log : list (nat * Event)
}.

Inductive Tick :=
| Arrive (caller : nat) (asset : Asset)   (* first callback of a caller *)
| Resume (caller : nat).                  (* second callback of a caller *)

Definition tick (W : World) (s : Server) (t : Tick) : Server :=
  match t with
  | Arrive i asset =>
      let '(evs, w) := serve_begin W asset (srv_cache s) in
      mkServer (srv_cache s) (<[i := w]> (srv_waiting s))
        (srv_log s ++ map (pair i) evs)
  | Resume i =>
      match srv_waiting s !! i with
      | None => s
      | Some w =>
          let r := serve_resume w (srv_cache s) in
          mkServer (cache_after r) (delete i (srv_waiting s))
            (srv_log s ++ map (pair i) (effects r))
      end
  end.

Definition run_ticks (W : World) (s : Server) (ts : list Tick) : Server :=
  foldl (tick W) s ts.

Definition cold (c : Cache) : Server := mkServer c ∅ [].

(** The number of [backend.getAssetStream(asset)] calls in a log. *)
Definition fetches_in (asset : Asset) (log : list (nat * Event)) : nat :=
  List.length
    (List.filter (fun x => bool_decide (x.2 = EvGetAssetStream asset)) log).

Definition backend_fetches (asset : Asset) (s : Server) : nat :=
  fetches_in asset (srv_log s).

(** The streams piped to a caller's response. *)
Definition piped_to (caller : nat) (log : list (nat * Event)) : list Bytes :=
  flat_map (fun x => match x with
                     | (i, EvPipe stream) =>
                         if bool_decide (i = caller) then [stream] else []
                     | _ => []
                     end) log.

Definition received (caller : nat) (s : Server) : list Bytes :=
  piped_to caller (srv_log s).

(** ** lib/backends/github.js *)

Module GitHubBackend.

Record Opts := mkOpts {
  token : Js.value;
  username : Js.value;
  password : Js.value
}.

Record Auth := mkAuth {
  user : Js.value;
  pass : Js.value;
  sendImmediately : bool
}.

(** The options object given to [request]. *)
Record HttpRequest := mkHttpRequest {
  uri : string;
  method : string;
  headers : list (string * string);
  auth : option Auth
}.

Definition getAssetStream_options (opts : Opts) (asset : Asset) : HttpRequest :=
  let headers := [("User-Agent", "nuts"); ("Accept", "application/octet-stream")] in
  if Js.truthy (token opts) then
    mkHttpRequest (raw_url asset) "get"
      (headers ++ [("Authorization", "token " +:+ Js.concat_undefined (token opts))])
      None
  else if Js.truthy (username opts) then
    mkHttpRequest (raw_url asset) "get" headers
      (Some (mkAuth (username opts) (password opts) true))
  else
    mkHttpRequest (raw_url asset) "get" headers None.

(** [GitHubBackend.prototype.getAssetStream]: [Q(request({...}))], a
    promise already fulfilled with the response stream. *)
Definition getAssetStream (request : HttpRequest -> Bytes) (opts : Opts)
    (asset : Asset) : settled Bytes :=
  Fulfilled (request (getAssetStream_options opts asset)).

End GitHubBackend.

(** ** Collaborators modelled from the specification

    The modules below stand in for the files [lib/nuts.js] requires.  They
    are used to run the handlers on concrete requests; the theorems on the
    handlers hold for every [World]. *)

Module Text.

(** Line feed. *)
Definition nl : string := String "010"%char EmptyString.

Fixpoint split_on (sep : ascii) (s : string) : list string :=
  match s with
  | EmptyString => [EmptyString]
  | String c s' =>
      if Ascii.eqb c sep then EmptyString :: split_on sep s'
      else match split_on sep s' with
           | [] => [String c EmptyString]
           | w :: ws => String c w :: ws
           end
  end.

Fixpoint join (sep : string) (l : list string) : string :=
  match l with
  | [] => EmptyString
  | [s] => s
  | s :: l' => s +:+ sep +:+ join sep l'
  end.

Definition ends_with (suffix s : string) : bool :=
  let n := String.length s in
  let m := String.length suffix in
  (m <=? n)%nat && String.eqb (String.substring (n - m) m s) suffix.

(** A non-empty run of decimal digits. *)
Definition parse_N (s : string) : option N :=
  if String.eqb s EmptyString then None
  else match DecimalString.NilEmpty.uint_of_string s with
       | Some u => Some (N.of_uint u)
       | None => None
       end.

Definition print_N (n : N) : string :=
  DecimalString.NilZero.string_of_uint (N.to_uint n).

(** [print_N] padded with zeros on the left to [width] digits. *)
Definition pad (width : nat) (n : N) : string :=
  let s := print_N n in
  String.concat EmptyString (replicate (width - String.length s) "0") +:+ s.

End Text.

Module Versions.

(** Modelled from the spec: [lib/versions.js] is not among the sources.
    A tag is a semantic version, [major.minor.patch] with an optional
    pre-release part after a hyphen. *)
Record semver := mkSemver {
  core : list N;
  pre : option string
}.

(** Modelled from the spec: reading a tag as a semantic version (section 3
    of the spec, "tag (a semantic-version string)"). *)
Definition parse_tag (t : string) : option semver :=
  let '(c, p) :=
    match String.index 0 "-" t with
    | Some i => (String.substring 0 i t,
                 Some (String.substring (S i) (String.length t - S i) t))
    | None => (t, None)
    end in
  match mapM Text.parse_N (Text.split_on "." c) with
  | Some ns => Some (mkSemver ns p)
  | None => None
  end.

(** Modelled from the spec: channel inference (section 4.3), the
    identifier following the hyphen, ["stable"] when there is none. *)
Definition channel_of (t : string) : string :=
  match parse_tag t with
  | Some (mkSemver _ (Some p)) => default p (head (Text.split_on "." p))
  | _ => "stable"
  end.

Fixpoint compare_core (a b : list N) : comparison :=
  match a, b with
  | [], [] => Eq
  | [], _ :: _ => Lt
  | _ :: _, [] => Gt
  | x :: a', y :: b' =>
      match N.compare x y with
      | Eq => compare_core a' b'
      | c => c
      end
  end.

(** Modelled from the spec: the order of semantic versions; a release is
    above its own pre-releases. *)
Definition compare_semver (a b : semver) : comparison :=
  match compare_core (core a) (core b) with
  | Eq =>
      match pre a, pre b with
      | None, None => Eq
      | None, Some _ => Gt
      | Some _, None => Lt
      | Some p, Some q => String.compare p q
      end
  | c => c
  end.

Definition compare_tag (a b : string) : option comparison :=
  match parse_tag a, parse_tag b with
  | Some x, Some y => Some (compare_semver x y)
  | _, _ => None
  end.

(** Modelled from the spec: the Release ordering (section 3), semantic
    version descending, publish timestamp descending as tiebreak. *)
Definition before (a b : Release) : bool :=
  match compare_tag (tag a) (tag b) with
  | Some Gt => true
  | Some Lt => false
  | _ => (published_at b <=? published_at a)%Z
  end.

Fixpoint insert_sorted (r : Release) (l : list Release) : list Release :=
  match l with
  | [] => [r]
  | x :: l' => if before r x then r :: l else x :: insert_sorted r l'
  end.

Definition sort (l : list Release) : list Release :=
  foldr insert_sorted [] l.

(** Modelled from the spec: the tag filter (sections 3 and 4.3), ["latest"]
    and the wildcard accept every tag, [">=X"] compares semantic versions,
    anything else is an exact tag. *)
Definition satisfies_tag (t : string) (wanted : string) : bool :=
  if String.eqb wanted "latest" || String.eqb wanted "*" then true
  else if String.prefix ">=" wanted then
    match compare_tag t (String.substring 2 (String.length wanted - 2) wanted) with
    | Some Lt | None => false
    | Some _ => true
    end
  else String.eqb t wanted.

(** Modelled from the spec: the channel filter; the wildcard matches all
    channels, and a query without a channel asks for the stable one
    (section 6, "default stable semantics"). *)
Definition satisfies_channel (c : string) (wanted : Js.value) : bool :=
  match wanted with
  | None => String.eqb c "stable"
  | Some w => String.eqb w "*" || String.eqb c w
  end.

(** Modelled from the spec: the platform filter, at least one asset
    classified for the platform. *)
Definition satisfies_platform (assets : list Asset) (wanted : Js.value) : bool :=
  match wanted with
  | None => true
  | Some p => existsb (fun a => String.eqb (type a) p) assets
  end.

(** Modelled from the spec: [filter] (section 4.3). *)
Definition filter (index : list Release) (q : Query) : list Release :=
  sort (List.filter
          (fun r => satisfies_channel (channel r) (q_channel q)
                    && satisfies_tag (tag r) (q_tag q)
                    && satisfies_platform (platforms r) (q_platform q))
          index).

(** Modelled from the spec: [resolve] (section 4.3), the first element of
    [filter], "not found" when there is none. *)
Definition resolve (index : list Release) (q : Query) : settled Release :=
  match head (filter index q) with
  | Some r => Fulfilled r
  | None => Rejected (Error "Version not found")
  end.

End Versions.

Module Platforms.

(** Modelled from the spec: [lib/utils/platforms.js] is not among the
    sources.  The Platform Matcher (section 4.2) keeps the assets
    classified for the platform; with a wanted extension it returns one
    whose file name ends with it, "not found" when there is none, and
    otherwise the first of its preference order, here the order of the
    release's assets. *)
Definition resolve (version : Release) (platform : Js.value)
    (wanted : Js.value) : option Asset :=
  let matched :=
    List.filter (fun a => String.eqb (type a) (Js.concat_null platform))
      (platforms version) in
  match wanted with
  | Some ext => List.find (fun a => Text.ends_with ext (filename a)) matched
  | None => head matched
  end.

(** Modelled from the spec: the spec names no normalisation of platform
    identifiers, so [detect] takes them as given. *)
Definition detect (platform : string) : string := platform.

(** Modelled from the spec: the spec speaks of platform identifiers
    without listing them; these stand for the four constants the download
    handler reads when it goes by the user agent. *)
Definition OSX : string := "osx".
Definition WINDOWS : string := "windows".
Definition LINUX : string := "linux".
Definition LINUX_64 : string := "linux_64".

End Platforms.

Module Notes.

(** Modelled from the spec: [lib/utils/notes.js] is not among the sources.
    The Notes Merger (section 4.6) concatenates the notes in the given
    order, each optionally preceded by a line with its tag, joined by a
    blank line. *)
Definition merge (versions : list Release) (includeTag : bool) : string :=
  Text.join (Text.nl +:+ Text.nl)
    (map (fun r => if includeTag then tag r +:+ Text.nl +:+ notes r else notes r)
       versions).

End Notes.

Module WinReleases.

(** Modelled from the spec: the spec gives an entry a hash, a file name
    and a size and does not say where [entry.semver] comes from; it is read
    off a package name [app-version-full.nupkg]. *)
Definition semver_of_filename (f : string) : string :=
  match Text.split_on "-" f with
  | _ :: rest => Text.join "-" (take (List.length rest - 1) rest)
  | [] => EmptyString
  end.

Definition parse_line (line : string) : settled Entry :=
  match Text.split_on " " line with
  | [h; f; s] =>
      match Text.parse_N s with
      | Some n => Fulfilled (mkEntry h f n (semver_of_filename f))
      | None => Rejected (Error "Malformed RELEASES line")
      end
  | _ => Rejected (Error "Malformed RELEASES line")
  end.

Fixpoint parse_lines (lines : list string) : settled (list Entry) :=
  match lines with
  | [] => Fulfilled []
  | l :: ls =>
      match parse_line l with
      | Fulfilled e =>
          match parse_lines ls with
          | Fulfilled es => Fulfilled (e :: es)
          | Rejected err => Rejected err
          end
      | Rejected err => Rejected err
      end
  end.

(** Modelled from the spec: [lib/utils/win-releases.js] is not among the
    sources.  The Release Manifest Codec (section 4.5): one entry per
    line, content hash, file name and size separated by a space; a
    malformed line fails the whole parse. *)
Definition parse (content : string) : settled (list Entry) :=
  parse_lines (Text.split_on "010"%char content).

(** Modelled from the spec: regeneration of the same line format. *)
Definition generate (entries : list Entry) : string :=
  Text.join Text.nl
    (map (fun e => sha e +:+ " " +:+ e_filename e +:+ " " +:+ Text.print_N (e_size e))
       entries).

End WinReleases.

Module Url.

(** Scheme and authority of an absolute URL. *)
Definition origin (u : string) : string :=
  match String.index 0 "://" u with
  | Some i =>
      match String.index (i + 3) "/" u with
      | Some j => String.substring 0 j u
      | None => u
      end
  | None => EmptyString
  end.

(** node's [url.resolve(from, to)] for the references the handlers
    build, which start with a slash: the origin of [from], then [to]. *)
Definition resolve (from to : string) : string := origin from +:+ to.

End Url.

Module Date.

(** [Date.prototype.toISOString] on the milliseconds since the epoch, for
    the years 0000 to 9999. *)
Definition toISOString (ms : Z) : string :=
  let days := (ms / 86400000)%Z in
  let rest := (ms mod 86400000)%Z in
  let z := (days + 719468)%Z in
  let era := (z / 146097)%Z in
  let doe := (z - era * 146097)%Z in
  let yoe := ((doe - doe / 1460 + doe / 36524 - doe / 146096) / 365)%Z in
  let doy := (doe - (365 * yoe + yoe / 4 - yoe / 100))%Z in
  let mp := ((5 * doy + 2) / 153)%Z in
  let d := (doy - (153 * mp + 2) / 5 + 1)%Z in
  let m := (if mp <? 10 then mp + 3 else mp - 9)%Z in
  let y := (yoe + era * 400 + (if m <=? 2 then 1 else 0))%Z in
  Text.pad 4 (Z.to_N y) +:+ "-" +:+ Text.pad 2 (Z.to_N m) +:+ "-"
  +:+ Text.pad 2 (Z.to_N d) +:+ "T"
  +:+ Text.pad 2 (Z.to_N (rest / 3600000)) +:+ ":"
  +:+ Text.pad 2 (Z.to_N (rest / 60000 mod 60)) +:+ ":"
  +:+ Text.pad 2 (Z.to_N (rest / 1000 mod 60)) +:+ "."
  +:+ Text.pad 3 (Z.to_N (rest mod 1000)) +:+ "Z".

End Date.

Module Backend.

(** Modelled from the spec: [Backend.prototype.readAsset] is in
    [lib/backends/backend.js], which is not among the sources.  The
    backend's "fetchAssetBytes" (section 6) delivers the bytes of an asset;
    reading an asset is taken to deliver the bytes of its stream. *)
Definition readAsset (getAssetStream : Asset -> settled Bytes) (asset : Asset)
  : settled Bytes :=
  getAssetStream asset.

End Backend.

(** A server over a fixed snapshot of the release index, the GitHub
    backend and no interceptors. *)
Definition world (index : list Release)
    (request : GitHubBackend.HttpRequest -> Bytes)
    (opts : GitHubBackend.Opts) : World :=
  {| versions_resolve := Versions.resolve index;
     versions_filter := fun q => Fulfilled (Versions.filter index q);
     OSX := Platforms.OSX;
     WINDOWS := Platforms.WINDOWS;
     LINUX := Platforms.LINUX;
     LINUX_64 := Platforms.LINUX_64;
     platforms_detect := Platforms.detect;
     platforms_resolve := Platforms.resolve;
     notes_merge := Notes.merge;
     winReleases_parse := WinReleases.parse;
     winReleases_generate := WinReleases.generate;
     url_resolve := Url.resolve;
     toISOString := Date.toISOString;
     toString_utf8 := String.string_of_list_byte;
     backend_getAssetStream := GitHubBackend.getAssetStream request opts;
     backend_readAsset :=
       Backend.readAsset (GitHubBackend.getAssetStream request opts);
     before_download := fun _ => Fulfilled tt;
     after_download := fun _ => Fulfilled tt |}.

(** ** Sample data *)

Module Sample.

Definition asset_url (n : string) : string :=
  "https://api.github.com/repos/acme/app/releases/assets/" +:+ n.

Definition osx_130b : Asset := mkAsset 41 "osx" "app-1.3.0-beta.1-osx.zip" 2048 (asset_url "41").
Definition osx_125 : Asset := mkAsset 51 "osx" "app-1.2.5-osx.zip" 2048 (asset_url "51").
Definition osx_120 : Asset := mkAsset 11 "osx" "app-1.2.0-osx.zip" 2048 (asset_url "11").
Definition nupkg_120 : Asset := mkAsset 12 "win_32" "app-1.2.0-full.nupkg" 4096 (asset_url "12").
Definition manifest_120 : Asset := mkAsset 13 "win_32" "RELEASES" 66 (asset_url "13").
Definition osx_110 : Asset := mkAsset 31 "osx" "app-1.1.0-osx.zip" 2048 (asset_url "31").

Definition r130b : Release :=
  mkRelease "1.3.0-beta.1" (Versions.channel_of "1.3.0-beta.1") [osx_130b]
    "Preview of the new updater" 1462060800000.
Definition r125 : Release :=
  mkRelease "1.2.5" (Versions.channel_of "1.2.5") [osx_125]
    "Mac only fix" 1459468800000.
Definition r120 : Release :=
  mkRelease "1.2.0" (Versions.channel_of "1.2.0") [osx_120; nupkg_120; manifest_120]
    "Faster startup" 1456790400000.
Definition r110 : Release :=
  mkRelease "1.1.0" (Versions.channel_of "1.1.0") [osx_110]
    "Fixes a crash" 1454284800000.

(** The RELEASES file attached to 1.2.0. *)
Definition manifest_text : string :=
  "94689fede03fed7ab59c24337673a27837f0c3ec app-1.2.0-full.nupkg 4096".

(** The remote store: what a GET of an asset's locator answers. *)
Definition request (r : GitHubBackend.HttpRequest) : Bytes :=
  if String.eqb (GitHubBackend.uri r) (asset_url "13")
  then String.list_byte_of_string manifest_text
  else String.list_byte_of_string
         ("PK" +:+ default EmptyString (last (Text.split_on "/" (GitHubBackend.uri r)))).

Definition opts : GitHubBackend.Opts :=
  GitHubBackend.mkOpts (Some "s3cr3t") None None.

Definition server (index : list Release) : World := world index request opts.

Definition no_params : Params := mkParams None None None None None.
Definition no_query : QueryString := mkQueryString None None None.
Definition curl : UserAgent := mkUserAgent false false false false.

Definition get (path : string) (p : Params) (q : QueryString) : Request :=
  mkRequest p q curl "https" "updates.acme.test" path.

(** GET /update/:platform/:version and /update/:platform/:version/RELEASES *)
Definition update_check (platform version : string) : Request :=
  get ("/update/" +:+ platform +:+ "/" +:+ version)
    (mkParams None (Some platform) None None (Some version)) no_query.

Definition update_feed (platform version : string) : Request :=
  get ("/update/" +:+ platform +:+ "/" +:+ version +:+ "/RELEASES")
    (mkParams None (Some platform) None None (Some version)) no_query.

(** GET /download/channel/:channel/:platform *)
Definition download_channel_platform (channel platform : string) : Request :=
  get ("/download/channel/" +:+ channel +:+ "/" +:+ platform)
    (mkParams (Some channel) (Some platform) None None None) no_query.

(** GET /download/version/:tag/:platform *)
Definition download_version_platform (tag platform : string) : Request :=
  get ("/download/version/" +:+ tag +:+ "/" +:+ platform)
    (mkParams None (Some platform) (Some tag) None None) no_query.

(** GET /download/:tag/:filename *)
Definition download_file (tag filename : string) : Request :=
  get ("/download/" +:+ tag +:+ "/" +:+ filename)
    (mkParams None None (Some tag) (Some filename) None) no_query.

(** GET /download/:platform *)
Definition download_platform_only (platform : string) : Request :=
  get ("/download/" +:+ platform)
    (mkParams None (Some platform) None None None) no_query.


End Sample.

(** ** lib/nuts.js: the notes route, construction and start *)

(** What [res.format] finds acceptable to the client among the keys
    ['text/plain'] and ['application/json'] of [onServeNotes]; when neither
    is, it calls the ['default'] entry. *)
Inductive Accepted :=
| TextPlain
| ApplicationJson
| NoneAcceptable.

(** What [onServeNotes] hands to [res.send]: a text, the object
    [{notes, pub_date}], or the value of a variable. *)
Inductive NotesSent :=
| SentText (s : string)
| SentNotes (n_notes : string) (n_pub_date : string)
| SentVariable (name : string).

(** [p.fail(next)], keeping what the chain was fulfilled with. *)
Definition fail_next_keep {A} (p : Promise A) : Promise (option A) :=
  fun c =>
    let r := p c in
    match outcome r with
    | Fulfilled a => mkRun (effects r) (cache_after r) (Fulfilled (Some a))
    | Rejected e => mkRun (effects r ++ [EvNext e]) (cache_after r) (Fulfilled None)
    end.

(** The identifiers in scope inside [onServeNotes]'s callbacks. *)
Definition onServeNotes_scope : list string :=
  [ "_"; "Q"; "url"; "os"; "path"; "Understudy"; "LRU"; "express";
    "useragent"; "BACKENDS"; "Versions"; "notes"; "platforms";
    "winReleases"; "API_METHODS"; "getFullUrl"; "Nuts";
    "req"; "res"; "next"; "that"; "tag"; "versions"; "latest" ].

(** The query of the notes route: any channel, no platform, the versions
    from [:version] upwards or all of them. *)
Definition notes_query (req : Request) : Query :=
  mkQuery (Some "*") None
    (if Js.truthy (p_version (params req))
     then ">=" +:+ Js.concat_undefined (p_version (params req))
     else "*").

(** [Nuts.prototype.onServeNotes].  [notes_merge_plain] is
    [notes.merge(versions)], the merger called without options; the run is
    fulfilled with what was sent, if anything was. *)
Definition onServeNotes (W : World) (notes_merge_plain : list Release -> string)
    (accepted : Accepted) (req : Request) : Promise (option NotesSent) :=
  fail_next_keep (
    let* versions :=
      (let* _ := fulfil tt in
       call (EvFilter (notes_query req)) (versions_filter W (notes_query req))) in
    match head versions with
    | None => throw (Error "No versions matching")
    | Some latest =>
        match accepted with
        | TextPlain => fulfil (SentText (notes_merge_plain versions))
        | ApplicationJson =>
            fulfil (SentNotes (notes_merge W versions false)
                      (toISOString W (published_at latest)))
        | NoneAcceptable =>
            with_ident onServeNotes_scope "releaseNotes"
              (fulfil (SentVariable "releaseNotes"))
        end
    end).

Module Options.

(** The options object of [Nuts(opts)]; a field left out is [None].
    [M] is the type of the two middleware functions. *)
Record Opts (M : Type) := mkOpts {
  backend : option string;
  timeout : option N;
  cache : option string;
  cacheMax : option N;
  cacheMaxAge : option N;
  preFetch : option bool;
  refreshSecret : option string;
  onDownload : option M;
  onAPIAccess : option M
}.
Arguments mkOpts {M}.
Arguments backend {M}.
Arguments timeout {M}.
Arguments cache {M}.
Arguments cacheMax {M}.
Arguments cacheMaxAge {M}.
Arguments preFetch {M}.
Arguments refreshSecret {M}.
Arguments onDownload {M}.
Arguments onAPIAccess {M}.

(** [{}] *)
Definition empty {M} : Opts M :=
  mkOpts None None None None None None None None None.

(** One property under [_.defaults]: kept when given, else the default. *)
Definition or_else {A} (given : option A) (d : A) : option A :=
  match given with
  | Some v => Some v
  | None => Some d
  end.

(** [_.defaults(opts || {}, {...})] in the constructor; [tmp_nuts] is
    [path.resolve(os.tmpdir(), 'nuts')] and [pass] the middleware that
    calls [next()]. *)
Definition defaults {M} (tmp_nuts : string) (pass : M) (opts : option (Opts M))
  : Opts M :=
  let o := match opts with Some o => o | None => empty end in
  {| backend := or_else (backend o) "github";
     timeout := or_else (timeout o) (60 * 60 * 1000)%N;
     cache := or_else (cache o) tmp_nuts;
     cacheMax := or_else (cacheMax o) (500 * 1024 * 1024)%N;
     cacheMaxAge := or_else (cacheMaxAge o) (60 * 60 * 1000)%N;
     preFetch := or_else (preFetch o) true;
     refreshSecret := or_else (refreshSecret o) "secret";
     onDownload := or_else (onDownload o) pass;
     onAPIAccess := or_else (onAPIAccess o) pass |}.

(** The arguments of [LRU(dir, {max, maxAge})]. *)
Record CacheSetup := mkCacheSetup {
  dir : option string;
  max : option N;
  maxAge : option N
}.

Inductive Constructed (M : Type) :=
| Threw (type_error : string)
| Built (this_opts : Opts M) (this_cache : CacheSetup).
Arguments Threw {M}.
Arguments Built {M}.

(** The constructor [Nuts(opts)] up to the creation of the cache.
    [this.opts] is the options object itself once [_.defaults] has filled
    it, or a fresh object when none was given; the cache is created from
    the argument [opts], not from [this.opts]. *)
Definition Nuts {M} (tmp_nuts : string) (pass : M) (opts : option (Opts M))
  : Constructed M :=
  let this_opts := defaults tmp_nuts pass opts in
  match opts with
  | None => Threw "Cannot read property 'cache' of undefined"
  | Some _ =>
      Built this_opts
        (mkCacheSetup (cache this_opts) (cacheMax this_opts) (cacheMaxAge this_opts))
  end.

(** The steps of [Nuts.prototype.init]. *)
Inductive Startup :=
| CacheInit          (* this.cache.init() *)
| BackendInit        (* that.backend.init() *)
| VersionsList.      (* that.versions.list() *)

(** [Nuts.prototype.init]: what it does and what its promise settles
    with, given what [backend.init()] and [versions.list()] settle with. *)
Definition init {M} (this_opts : Opts M) (backend_init versions_list : settled unit)
  : list Startup * settled unit :=
  match backend_init with
  | Rejected e => ([CacheInit; BackendInit], Rejected e)
  | Fulfilled _ =>
      if negb (default false (preFetch this_opts))
      then ([CacheInit; BackendInit], Fulfilled tt)
      else ([CacheInit; BackendInit; VersionsList], versions_list)
  end.

End Options.

(** ** Vocabulary of the properties *)

(** The error of a missing parameter. *)
Definition requires (name : string) : Js.error :=
  Error ("Requires " +:+ Js.dq +:+ name +:+ Js.dq +:+ " parameter").

(** Neither [this.versions] nor [this.backend] is called. *)
Definition calls_nothing (evs : list Event) : Prop :=
  forall ev, ev ∈ evs ->
    match ev with
    | EvResolve _ | EvFilter _ | EvGetAssetStream _ | EvReadAsset _ => False
    | _ => True
    end.

(** The query of the two update feeds: any channel, the detected
    platform, versions from [version] upwards. *)
Definition update_query (W : World) (platform version : string) : Query :=
  mkQuery (Some "*") (Some (platforms_detect W platform)) (">=" +:+ version).

(** The answer without an update. *)
Definition no_updates : list Event :=
  [EvStatus 204; EvSend (Text "No updates")].

(** The answer with an update to [latest], out of the matching releases
    [versions]. *)
Definition update_available (W : World) (req : Request) (platform : string)
    (versions : list Release) (latest : Release) : list Event :=
  [EvStatus 200;
   EvSend (Json {|
     u_url := url_resolve W (getFullUrl req)
                ("/download/version/" +:+ tag latest +:+ "/"
                 +:+ platforms_detect W platform +:+ "?filetype=zip");
     u_name := tag latest;
     u_notes := notes_merge W (slice_0_m1 versions) false;
     u_pub_date := toISOString W (published_at latest) |})].

(** The releases among [versions] other than the one tagged [queried]. *)
Definition without_tag (queried : string) (versions : list Release)
  : list Release :=
  List.filter (fun r => negb (String.eqb (tag r) queried)) versions.

(** The request with another [:platform] parameter. *)
Definition with_platform (platform : Js.value) (req : Request) : Request :=
  mkRequest
    (mkParams (p_channel (params req)) platform (p_tag (params req))
       (p_filename (params req)) (p_version (params req)))
    (query req) (useragent req) (protocol req) (host req) (originalUrl req).

(** The request with another [:channel] parameter. *)
Definition with_channel (channel : Js.value) (req : Request) : Request :=
  mkRequest
    (mkParams channel (p_platform (params req)) (p_tag (params req))
       (p_filename (params req)) (p_version (params req)))
    (query req) (useragent req) (protocol req) (host req) (originalUrl req).

(** The query [onUpdateWin] makes. *)
Definition win_query (W : World) (req : Request) : Query :=
  update_query W "win_32" (Js.concat_undefined (p_version (params req))).

(** The RELEASES file among the assets of a release. *)
Definition find_manifest (latest : Release) : option Asset :=
  List.find (fun a => String.eqb (filename a) "RELEASES") (platforms latest).

(** The reading of the Windows-style feed under which the manifest read
    from the backend belongs to the newest release matching the platform
    named in the request. *)
Definition manifest_by_request_platform (W : World) (req : Request)
    (c : Cache) : Prop :=
  forall asset,
    EvReadAsset asset ∈ effects (onUpdateWin W req c) ->
    exists versions latest,
      versions_filter W
        (update_query W (Js.concat_undefined (p_platform (params req)))
           (Js.concat_undefined (p_version (params req))))
      = Fulfilled versions
      /\ head versions = Some latest
      /\ asset ∈ platforms latest.

(** An entry and the entry served for it: the file name goes through the
    download route of this server, hash, size and version are kept. *)
Definition proxied (W : World) (req : Request) (entry served : Entry) : Prop :=
  sha served = sha entry
  /\ e_size served = e_size entry
  /\ semver served = semver entry
  /\ e_filename served
     = url_resolve W (getFullUrl req)
         ("/download/" +:+ semver entry +:+ "/" +:+ e_filename entry).

(** The asset [onDownload] picks in the resolved version. *)
Definition download_asset (W : World) (req : Request) (version : Release)
  : option Asset :=
  if Js.truthy (p_filename (params req)) then
    List.find
      (fun a => String.eqb (filename a) (Js.concat_null (p_filename (params req))))
      (platforms version)
  else
    platforms_resolve W version (download_platform W req)
      (if Js.truthy (qs_filetype (query req))
       then Some ("." +:+ Js.concat_null (qs_filetype (query req))) else None).

(** The error of a version without a matching asset. *)
Definition no_download (W : World) (req : Request) (version : Release)
  : Js.error :=
  Error ("No download available for platform "
         +:+ Js.concat_null (download_platform W req)
         +:+ " for version " +:+ tag version
         +:+ " (" +:+ Js.or_default (download_channel req) "beta" +:+ ")").

(** What the failure callback of [onDownload] passes on for the error
    [err] of the first resolution. *)
Definition download_failure (req : Request) (err : Js.error) : Js.error :=
  if Js.truthy (download_channel req) || negb (String.eqb (download_tag req) "latest")
  then err
  else ReferenceError "versions is not defined".

(** The effects of a chain ended by [.fail(next)]. *)
Definition ended {A} (r : Run A) : list Event :=
  effects r ++ match outcome r with
               | Fulfilled _ => []
               | Rejected e => [EvNext e]
               end.

(** The same server with other platform utilities. *)
Definition with_platforms (W : World) (osx windows linux linux_64 : string)
    (detect : string -> string)
    (resolve : Release -> Js.value -> Js.value -> option Asset) : World :=
  {| versions_resolve := versions_resolve W;
     versions_filter := versions_filter W;
     OSX := osx;
     WINDOWS := windows;
     LINUX := linux;
     LINUX_64 := linux_64;
     platforms_detect := detect;
     platforms_resolve := resolve;
     notes_merge := notes_merge W;
     winReleases_parse := winReleases_parse W;
     winReleases_generate := winReleases_generate W;
     url_resolve := url_resolve W;
     toISOString := toISOString W;
     toString_utf8 := toString_utf8 W;
     backend_getAssetStream := backend_getAssetStream W;
     backend_readAsset := backend_readAsset W;
     before_download := before_download W;
     after_download := after_download W |}.

(** The reading of the download fallback under which a request for the
    latest release on a named channel that has no release is resolved
    again on any channel, and is not answered with the failure while the
    index holds a release for it. *)
Definition falls_back_to_any_channel (W : World) (req : Request) (c : Cache)
  : Prop :=
  forall channel err latest,
    p_channel (params req) = Some channel ->
    channel <> EmptyString -> channel <> "*" ->
    download_tag req = "latest" ->
    versions_resolve W (download_query W req) = Rejected err ->
    versions_resolve W (mkQuery (Some "*") (download_platform W req) "latest")
    = Fulfilled latest ->
    EvResolve (mkQuery (Some "*") (download_platform W req) "latest")
      ∈ effects (onDownload W req c)
    /\ EvNext err ∉ effects (onDownload W req c).

(** What [serveAsset] sets on the response before any stream. *)
Definition asset_headers (asset : Asset) : list Event :=
  [EvHeader "Content-Length" (HNum (size asset)); EvAttachment (filename asset)].

(** The reading of the asset cache under which callers that ask for the
    same uncached asset before any of them has stored it share one backend
    fetch. *)
Definition single_flight (W : World) (asset : Asset) (c : Cache) : Prop :=
  c !! id asset = None ->
  forall i j : nat, i <> j ->
    backend_fetches asset
      (run_ticks W (cold c) [Arrive i asset; Arrive j asset; Resume i; Resume j])
    = 1.

(** The first callback of every caller, then the second of every caller. *)
Definition all_arrive_then_resume (asset : Asset) (callers : list nat)
  : list Tick :=
  map (fun i => Arrive i asset) callers ++ map Resume callers.

(** What a caller that misses the cache leaves in the log on arrival and
    on resumption. *)
Definition arrival (asset : Asset) (i : nat) : list (nat * Event) :=
  map (pair i) (asset_headers asset ++ [EvGetAssetStream asset]).

Definition resumption (asset : Asset) (stream : Bytes) (i : nat)
  : list (nat * Event) :=
  [(i, EvCacheSet (id asset) stream); (i, EvPipe stream)].

(** [next(err)] *)
Definition is_next (ev : Event) : bool :=
  match ev with
  | EvNext _ => true
  | _ => false
  end.

(** A call on the response object. *)
Definition on_response (ev : Event) : bool :=
  match ev with
  | EvHeader _ _ | EvAttachment _ | EvStatus _ | EvSend _ | EvRedirect _
  | EvPipe _ => true
  | _ => false
  end.

(** [next(err)] is called at most once, and then as the last effect. *)
Definition reports_at_most_once (evs : list Event) : Prop :=
  (forall e, EvNext e ∉ evs)
  \/ exists pre e, evs = pre ++ [EvNext e] /\ forall e', EvNext e' ∉ pre.

(** The header names of a request to GitHub. *)
Definition header_names (r : GitHubBackend.HttpRequest) : list string :=
  map fst (GitHubBackend.headers r).

(** The same server with other interceptors on the ['download'] hook. *)
Definition with_hooks (W : World) (before after : HookArg -> settled unit)
  : World :=
  {| versions_resolve := versions_resolve W;
     versions_filter := versions_filter W;
     OSX := OSX W;
     WINDOWS := WINDOWS W;
     LINUX := LINUX W;
     LINUX_64 := LINUX_64 W;
     platforms_detect := platforms_detect W;
     platforms_resolve := platforms_resolve W;
     notes_merge := notes_merge W;
     winReleases_parse := winReleases_parse W;
     winReleases_generate := winReleases_generate W;
     url_resolve := url_resolve W;
     toISOString := toISOString W;
     toString_utf8 := toString_utf8 W;
     backend_getAssetStream := backend_getAssetStream W;
     backend_readAsset := backend_readAsset W;
     before_download := before;
     after_download := after |}.

(** A sample server whose interceptor refuses every download. *)
Definition refusing_server (index : list Release) : World :=
  with_hooks (Sample.server index)
    (fun _ => Rejected (Error "Forbidden")) (fun _ => Fulfilled tt).

(** A call on the cache under another key than [key], or on the backend
    for another asset than [asset]. *)
Definition off_key (asset : Asset) (ev : Event) : bool :=
  match ev with
  | EvCacheGetStream key => negb (N.eqb key (id asset))
  | EvCacheSet key _ => negb (N.eqb key (id asset))
  | EvGetAssetStream a => negb (bool_decide (a = asset))
  | EvReadAsset _ => true
  | _ => false
  end.

(** The number of events of a kind in a run. *)
Definition count_events (p : Event -> bool) (evs : list Event) : nat :=
  List.length (List.filter p evs).

Definition is_cache_set (ev : Event) : bool :=
  match ev with
  | EvCacheSet _ _ => true
  | _ => false
  end.

Definition is_pipe (ev : Event) : bool :=
  match ev with
  | EvPipe _ => true
  | _ => false
  end.

Definition is_backend_call (ev : Event) : bool :=
  match ev with
  | EvGetAssetStream _ | EvReadAsset _ => true
  | _ => false
  end.

(** * Properties *)

(** ** JavaScript truthiness *)

Lemma truthy_Some (s : string) : Js.truthy (Some s) = true <-> s <> EmptyString.
Proof.
  unfold Js.truthy. rewrite negb_true_iff. split.
  - intros H ->. discriminate.
  - intros H. apply String.eqb_neq. exact H.
Qed.

Lemma truthy_None : Js.truthy None = false.
Proof. reflexivity. Qed.

(** ** Update requests: [onUpdate] *)

(** C4: an update request without a ["version"] parameter, or with one
    but without a ["platform"] parameter, is answered at once with the
    error naming the missing parameter, and with both it is redirected to
    [/update/<platform>/<version>]; in no case is the release index or the
    backend called, and the cache is left as it was. *)
Theorem onUpdate_requires_parameters (req : Request) (c : Cache) :
  (Js.truthy (qs_version (query req)) = false ->
   onUpdate req c = mkRun [EvNext (requires "version")] c (Fulfilled tt))
  /\ (Js.truthy (qs_version (query req)) = true ->
      Js.truthy (qs_platform (query req)) = false ->
      onUpdate req c = mkRun [EvNext (requires "platform")] c (Fulfilled tt))
  /\ (forall platform version,
        qs_version (query req) = Some version -> version <> EmptyString ->
        qs_platform (query req) = Some platform -> platform <> EmptyString ->
        onUpdate req c =
        mkRun [EvRedirect ("/update/" +:+ platform +:+ "/" +:+ version)] c
          (Fulfilled tt))
  /\ calls_nothing (effects (onUpdate req c)).
Proof.
  unfold onUpdate, fail_next, then_, fulfil, throw, effect, call, requires.
  repeat split.
  - intros ->. reflexivity.
  - intros -> ->. reflexivity.
  - intros p v -> Hv -> Hp.
    apply truthy_Some in Hv, Hp. rewrite Hv, Hp. reflexivity.
  - intros ev. cbn.
    destruct (Js.truthy (qs_version (query req)));
      [destruct (Js.truthy (qs_platform (query req)))|];
      cbn; intros Hev; repeat (apply elem_of_cons in Hev as [->|Hev]);
      try exact I; by apply elem_of_nil in Hev.
Qed.

Lemma onUpdate_requires_parameters_witness :
  onUpdate (Sample.get "/update?platform=osx" Sample.no_params
              (mkQueryString None None (Some "osx"))) ∅
  = mkRun [EvNext (requires "version")] ∅ (Fulfilled tt)
  /\ onUpdate (Sample.get "/update?version=1.0.0" Sample.no_params
                 (mkQueryString None (Some "1.0.0") None)) ∅
     = mkRun [EvNext (requires "platform")] ∅ (Fulfilled tt)
  /\ onUpdate (Sample.get "/update?version=1.0.0&platform=osx" Sample.no_params
                 (mkQueryString None (Some "1.0.0") (Some "osx"))) ∅
     = mkRun [EvRedirect "/update/osx/1.0.0"] ∅ (Fulfilled tt).
Proof.
  split; [|split].
  - apply (onUpdate_requires_parameters
             (Sample.get "/update?platform=osx" Sample.no_params
                (mkQueryString None None (Some "osx"))) ∅).
    reflexivity.
  - apply (onUpdate_requires_parameters
             (Sample.get "/update?version=1.0.0" Sample.no_params
                (mkQueryString None (Some "1.0.0") None)) ∅);
      reflexivity.
  - apply (proj1 (proj2 (proj2 (onUpdate_requires_parameters
             (Sample.get "/update?version=1.0.0&platform=osx" Sample.no_params
                (mkQueryString None (Some "1.0.0") (Some "osx"))) ∅)))
             "osx" "1.0.0"); [reflexivity|discriminate|reflexivity|discriminate].
Defined.

(** ** Mac-style update check: [onUpdateOSX] *)

Section UpdateOSX.

Context (W : World) (req : Request) (c : Cache).
Context (platform version : string).
Hypothesis Hplatform : p_platform (params req) = Some platform.
Hypothesis Hversion : p_version (params req) = Some version.
Hypothesis platform_given : platform <> EmptyString.
Hypothesis version_given : version <> EmptyString.

Lemma onUpdateOSX_unfold (versions : list Release) :
  versions_filter W (update_query W platform version) = Fulfilled versions ->
  onUpdateOSX W req c =
  mkRun (EvFilter (update_query W platform version) ::
         match head versions with
         | None => no_updates
         | Some latest =>
             if String.eqb (tag latest) version then no_updates
             else update_available W req platform versions latest
         end) c (Fulfilled tt).
Proof.
  intros Hfilter.
  unfold onUpdateOSX, fail_next, then_, fulfil, throw, effect, call.
  rewrite Hplatform, Hversion. cbn.
  apply truthy_Some in platform_given, version_given.
  cbn in platform_given, version_given.
  rewrite platform_given, version_given. cbn.
  unfold update_query in Hfilter. rewrite Hfilter. cbn.
  destruct versions as [|latest rest]; [reflexivity|]. cbn.
  destruct (String.eqb (tag latest) version); reflexivity.
Qed.

End UpdateOSX.

(** C5: a Mac-style update check with a platform and a version asks the
    index for the releases from that version upwards, for the platform, on
    any channel.  When there is none, or the newest one carries the
    queried tag, the answer is the empty "No updates" status; otherwise it
    is the object with the download URL of the newest release, its tag, the
    merged notes and its publish date in ISO form. *)
Theorem onUpdateOSX_response (W : World) (req : Request) (c : Cache)
    (platform version : string) (versions : list Release) :
  p_platform (params req) = Some platform ->
  p_version (params req) = Some version ->
  platform <> EmptyString -> version <> EmptyString ->
  versions_filter W (update_query W platform version) = Fulfilled versions ->
  ((head versions = None
    \/ exists latest, head versions = Some latest /\ tag latest = version) ->
   onUpdateOSX W req c =
   mkRun (EvFilter (update_query W platform version) :: no_updates) c
     (Fulfilled tt))
  /\ (forall latest,
        head versions = Some latest -> tag latest <> version ->
        onUpdateOSX W req c =
        mkRun (EvFilter (update_query W platform version)
               :: update_available W req platform versions latest) c
          (Fulfilled tt)
        /\ exists info,
             update_available W req platform versions latest
             = [EvStatus 200; EvSend (Json info)]
             /\ u_url info = url_resolve W (getFullUrl req)
                               ("/download/version/" +:+ tag latest +:+ "/"
                                +:+ platforms_detect W platform
                                +:+ "?filetype=zip")
             /\ u_name info = tag latest
             /\ u_pub_date info = toISOString W (published_at latest)).
Proof.
  intros Hp Hv Hpne Hvne Hfilter.
  rewrite (onUpdateOSX_unfold W req c platform version Hp Hv Hpne Hvne versions Hfilter).
  split.
  - intros [-> | (latest & -> & Htag)]; [reflexivity|].
    apply String.eqb_eq in Htag. rewrite Htag. reflexivity.
  - intros latest -> Htag.
    apply String.eqb_neq in Htag. rewrite Htag.
    split; [reflexivity|].
    eexists. split; [reflexivity|]. cbn. auto.
Qed.

Lemma onUpdateOSX_response_witness :
  onUpdateOSX (Sample.server [Sample.r120; Sample.r110])
    (Sample.update_check "osx" "1.2.0") ∅
  = mkRun [EvFilter (mkQuery (Some "*") (Some "osx") ">=1.2.0");
           EvStatus 204; EvSend (Text "No updates")] ∅ (Fulfilled tt)
  /\ onUpdateOSX (Sample.server [Sample.r120; Sample.r110])
       (Sample.update_check "osx" "1.1.0") ∅
     = mkRun [EvFilter (mkQuery (Some "*") (Some "osx") ">=1.1.0");
              EvStatus 200;
              EvSend (Json {|
                u_url := "https://updates.acme.test/download/version/1.2.0/osx?filetype=zip";
                u_name := "1.2.0";
                u_notes := "Faster startup";
                u_pub_date := "2016-03-01T00:00:00.000Z" |})] ∅ (Fulfilled tt).
Proof.
  split.
  - apply (onUpdateOSX_response (Sample.server [Sample.r120; Sample.r110])
             (Sample.update_check "osx" "1.2.0") ∅ "osx" "1.2.0" [Sample.r120]);
      [reflexivity|reflexivity|discriminate|discriminate|reflexivity|].
    right. exists Sample.r120. split; reflexivity.
  - destruct (onUpdateOSX_response (Sample.server [Sample.r120; Sample.r110])
                (Sample.update_check "osx" "1.1.0") ∅ "osx" "1.1.0"
                [Sample.r120; Sample.r110]) as [_ Hnewer];
      [reflexivity|reflexivity|discriminate|discriminate|reflexivity|].
    destruct (Hnewer Sample.r120) as [Heq _]; [reflexivity|discriminate|].
    exact Heq.
Defined.

(** The last of the matching releases is the one left out of the notes;
    it is the queried release when that release is among them and is the
    oldest. *)
Lemma slice_0_m1_app {A} (l : list A) (x : A) : slice_0_m1 (l ++ [x]) = l.
Proof.
  unfold slice_0_m1. rewrite length_app. cbn.
  replace (List.length l + 1 - 1) with (List.length l) by lia.
  rewrite take_app_length. reflexivity.
Qed.

Lemma without_tag_app (queried : string) (l1 l2 : list Release) :
  without_tag queried (l1 ++ l2) = without_tag queried l1 ++ without_tag queried l2.
Proof. unfold without_tag. apply List.filter_app. Qed.

Lemma without_tag_id (queried : string) (l : list Release) :
  Forall (fun r => tag r <> queried) l -> without_tag queried l = l.
Proof.
  induction 1 as [|r l Hr _ IH]; [reflexivity|].
  unfold without_tag in *. cbn.
  apply String.eqb_neq in Hr. rewrite Hr. cbn. by rewrite IH.
Qed.

Lemma slice_0_m1_without_queried (queried : string) (newer : list Release)
    (current : Release) :
  tag current = queried ->
  Forall (fun r => tag r <> queried) newer ->
  slice_0_m1 (newer ++ [current]) = without_tag queried (newer ++ [current]).
Proof.
  intros Hcur Hnewer.
  rewrite slice_0_m1_app, without_tag_app, (without_tag_id _ _ Hnewer).
  unfold without_tag. cbn.
  apply String.eqb_eq in Hcur. rewrite Hcur. cbn.
  by rewrite app_nil_r.
Qed.

(** When the last matching release does not carry the queried tag, it is
    left out all the same. *)
Lemma slice_0_m1_drops_unqueried (queried : string) (newer : list Release)
    (oldest : Release) :
  tag oldest <> queried -> ~ In oldest newer ->
  In oldest (without_tag queried (newer ++ [oldest]))
  /\ ~ In oldest (slice_0_m1 (newer ++ [oldest])).
Proof.
  intros Htag Hnotin. rewrite slice_0_m1_app. split; [|exact Hnotin].
  unfold without_tag. apply List.filter_In. split.
  - apply List.in_or_app. right. by left.
  - apply String.eqb_neq in Htag. by rewrite Htag.
Qed.

Lemma slice_0_m1_without_queried_witness :
  slice_0_m1 ([Sample.r120] ++ [Sample.r110])
  = without_tag "1.1.0" ([Sample.r120] ++ [Sample.r110]).
Proof.
  apply (slice_0_m1_without_queried "1.1.0" [Sample.r120] Sample.r110).
  - reflexivity.
  - repeat constructor. discriminate.
Defined.

(** C6: the notes of an update are merged from the matching releases
    without the last one.  A client on 1.0.0, a version that is not among
    the releases, is offered 1.2.0 with the notes of 1.2.0 alone: the
    notes of 1.1.0, which it does not have either, are dropped, although no
    matching release carries the queried tag. *)
Theorem onUpdateOSX_notes_drop_unqueried_release :
  let W := Sample.server [Sample.r120; Sample.r110] in
  let req := Sample.update_check "osx" "1.0.0" in
  let matching := [Sample.r120; Sample.r110] in
  versions_filter W (update_query W "osx" "1.0.0") = Fulfilled matching
  /\ without_tag "1.0.0" matching = matching
  /\ effects (onUpdateOSX W req ∅)
     = [EvFilter (mkQuery (Some "*") (Some "osx") ">=1.0.0");
        EvStatus 200;
        EvSend (Json {|
          u_url := "https://updates.acme.test/download/version/1.2.0/osx?filetype=zip";
          u_name := "1.2.0";
          u_notes := notes_merge W [Sample.r120] false;
          u_pub_date := "2016-03-01T00:00:00.000Z" |})]
  /\ notes_merge W [Sample.r120] false = "Faster startup"
  /\ notes_merge W (without_tag "1.0.0" matching) false
     = "Faster startup" +:+ Text.nl +:+ Text.nl +:+ "Fixes a crash".
Proof. vm_compute. repeat split. Qed.

(** ** Windows-style update feed: [onUpdateWin] *)

(** The feed, case by case. *)
Lemma onUpdateWin_unfold (W : World) (req : Request) (c : Cache) :
  onUpdateWin W req c =
  mkRun
    (EvFilter (win_query W req) ::
     match versions_filter W (win_query W req) with
     | Rejected e => [EvNext e]
     | Fulfilled versions =>
         match head versions with
         | None => [EvNext (Error "Version not found")]
         | Some latest =>
             match find_manifest latest with
             | None => [EvNext (Error "File not found")]
             | Some asset =>
                 EvReadAsset asset ::
                 match backend_readAsset W asset with
                 | Rejected e => [EvNext e]
                 | Fulfilled content =>
                     match winReleases_parse W (toString_utf8 W content) with
                     | Rejected e => [EvNext e]
                     | Fulfilled entries =>
                         let output :=
                           winReleases_generate W
                             (map (proxy_entry W (getFullUrl req)) entries) in
                         [EvHeader "Content-Length"
                            (HNum (N.of_nat (String.length output)));
                          EvAttachment "RELEASES";
                          EvSend (Text output)]
                     end
                 end
             end
         end
     end) c (Fulfilled tt).
Proof.
  unfold onUpdateWin, win_query, update_query, find_manifest,
    fail_next, then_, fulfil, throw, effect, call, settle. cbn.
  destruct (versions_filter W _) as [versions|e]; [|reflexivity]. cbn.
  destruct (head versions) as [latest|]; [|reflexivity].
  destruct (List.find _ (platforms latest)) as [asset|]; [|reflexivity]. cbn.
  destruct (backend_readAsset W asset) as [content|e]; [|reflexivity]. cbn.
  destruct (winReleases_parse W _) as [entries|e]; reflexivity.
Qed.

(** The feed reads [req.params.version] and the request's URL, and never
    [req.params.platform]. *)
Lemma onUpdateWin_with_platform (W : World) (req : Request) (c : Cache)
    (platform : Js.value) :
  onUpdateWin W (with_platform platform req) c = onUpdateWin W req c.
Proof. reflexivity. Qed.

Ltac not_in_events H :=
  cbn in H;
  repeat (apply elem_of_cons in H as [?|H]; [discriminate|]);
  by apply elem_of_nil in H.

(** The feed asks the index once. *)
Lemma onUpdateWin_one_filter (W : World) (req : Request) (c : Cache) :
  exists rest,
    effects (onUpdateWin W req c) = EvFilter (win_query W req) :: rest
    /\ forall q, EvFilter q ∉ rest.
Proof.
  rewrite onUpdateWin_unfold. cbn [effects].
  eexists. split; [reflexivity|]. intros q Hq.
  destruct (versions_filter W (win_query W req)) as [versions|e];
    [|not_in_events Hq].
  destruct (head versions) as [latest|]; [|not_in_events Hq].
  destruct (find_manifest latest) as [manifest|]; [|not_in_events Hq].
  destruct (backend_readAsset W manifest) as [content|e];
    [destruct (winReleases_parse W (toString_utf8 W content)) as [entries|e]|];
    not_in_events Hq.
Qed.

(** The asset the feed reads is the RELEASES file of the first release
    the index answers with. *)
Lemma onUpdateWin_reads_manifest (W : World) (req : Request) (c : Cache)
    (asset : Asset) :
  EvReadAsset asset ∈ effects (onUpdateWin W req c) ->
  exists versions latest,
    versions_filter W (win_query W req) = Fulfilled versions
    /\ head versions = Some latest
    /\ find_manifest latest = Some asset.
Proof.
  rewrite onUpdateWin_unfold. cbn [effects]. intros Hin.
  destruct (versions_filter W (win_query W req)) as [versions|e];
    [|not_in_events Hin].
  destruct (head versions) as [latest|] eqn:Hhead; [|not_in_events Hin].
  destruct (find_manifest latest) as [manifest|] eqn:Hfind; [|not_in_events Hin].
  exists versions, latest. split; [reflexivity|]. split; [exact Hhead|].
  apply elem_of_cons in Hin as [?|Hin]; [discriminate|].
  apply elem_of_cons in Hin as [Heq|Hin]; [by inversion Heq|].
  destruct (backend_readAsset W manifest) as [content|e];
    [destruct (winReleases_parse W (toString_utf8 W content)) as [entries|e]|];
    not_in_events Hin.
Qed.

(** C7, as amended: the release whose manifest the Windows-style feed
    serves is the newest of the releases from the requested version upwards
    that match the fixed platform [win_32], on any channel; the platform
    named in the request plays no part. *)
Theorem onUpdateWin_selects_win_32 (W : World) (req : Request) (c : Cache) :
  q_platform (win_query W req) = Some (platforms_detect W "win_32")
  /\ q_tag (win_query W req) = ">=" +:+ Js.concat_undefined (p_version (params req))
  /\ q_channel (win_query W req) = Some "*"
  /\ (exists rest,
        effects (onUpdateWin W req c) = EvFilter (win_query W req) :: rest
        /\ forall q, EvFilter q ∉ rest)
  /\ (forall asset,
        EvReadAsset asset ∈ effects (onUpdateWin W req c) ->
        exists versions latest,
          versions_filter W (win_query W req) = Fulfilled versions
          /\ head versions = Some latest
          /\ find_manifest latest = Some asset)
  /\ (forall platform,
        onUpdateWin W (with_platform platform req) c = onUpdateWin W req c).
Proof.
  split; [reflexivity|]. split; [reflexivity|]. split; [reflexivity|].
  split; [apply onUpdateWin_one_filter|].
  split; [apply onUpdateWin_reads_manifest|].
  intros platform. apply onUpdateWin_with_platform.
Qed.

(** C7, as stated, fails: with 1.2.5 published for the Mac only, a feed
    request naming the platform [osx] is served the manifest of 1.2.0, the
    newest release for [win_32], and not an asset of 1.2.5, the newest
    release for [osx]. *)
Lemma onUpdateWin_request_platform_counterexample :
  ~ manifest_by_request_platform
      (Sample.server [Sample.r125; Sample.r120; Sample.r110])
      (Sample.update_feed "osx" "1.0.0") ∅.
Proof.
  intros Hclaim.
  destruct (Hclaim Sample.manifest_120) as (versions & latest & Hf & Hhead & Hin).
  - refine (bool_decide_unpack _ _). vm_compute. exact I.
  - vm_compute in Hf. inversion Hf; subst versions; clear Hf.
    vm_compute in Hhead. inversion Hhead; subst latest; clear Hhead.
    cbn in Hin. apply list_elem_of_singleton in Hin. discriminate.
Qed.

Lemma proxy_entry_proxied (W : World) (req : Request) (entries : list Entry) :
  Forall2 (proxied W req) entries (map (proxy_entry W (getFullUrl req)) entries).
Proof.
  induction entries as [|entry entries IH]; cbn; constructor; [|exact IH].
  repeat split.
Qed.

(** C8: when the manifest of the selected release is read and parsed, the
    feed is the codec's output for the parsed entries with each file name
    rewritten to a URL of this server's download route, hash and size as
    they were; it is sent as the attachment RELEASES with the length of
    the output as Content-Length. *)
Theorem onUpdateWin_serves_proxied_manifest (W : World) (req : Request)
    (c : Cache) (versions : list Release) (latest : Release) (asset : Asset)
    (content : Bytes) (entries : list Entry) :
  versions_filter W (win_query W req) = Fulfilled versions ->
  head versions = Some latest ->
  find_manifest latest = Some asset ->
  backend_readAsset W asset = Fulfilled content ->
  winReleases_parse W (toString_utf8 W content) = Fulfilled entries ->
  exists served output,
    Forall2 (proxied W req) entries served
    /\ output = winReleases_generate W served
    /\ onUpdateWin W req c =
       mkRun [EvFilter (win_query W req);
              EvReadAsset asset;
              EvHeader "Content-Length" (HNum (N.of_nat (String.length output)));
              EvAttachment "RELEASES";
              EvSend (Text output)] c (Fulfilled tt).
Proof.
  intros Hfilter Hhead Hfind Hread Hparse.
  exists (map (proxy_entry W (getFullUrl req)) entries).
  eexists. split; [apply proxy_entry_proxied|]. split; [reflexivity|].
  rewrite onUpdateWin_unfold, Hfilter, Hhead, Hfind, Hread, Hparse.
  reflexivity.
Qed.

Lemma onUpdateWin_serves_proxied_manifest_witness :
  exists served output,
    Forall2 (proxied (Sample.server [Sample.r125; Sample.r120; Sample.r110])
               (Sample.update_feed "win" "1.0.0"))
      [mkEntry "94689fede03fed7ab59c24337673a27837f0c3ec"
         "app-1.2.0-full.nupkg" 4096 "1.2.0"] served
    /\ output = WinReleases.generate served
    /\ onUpdateWin (Sample.server [Sample.r125; Sample.r120; Sample.r110])
         (Sample.update_feed "win" "1.0.0") ∅
       = mkRun [EvFilter (mkQuery (Some "*") (Some "win_32") ">=1.0.0");
                EvReadAsset Sample.manifest_120;
                EvHeader "Content-Length" (HNum (N.of_nat (String.length output)));
                EvAttachment "RELEASES";
                EvSend (Text output)] ∅ (Fulfilled tt).
Proof.
  apply (onUpdateWin_serves_proxied_manifest
           (Sample.server [Sample.r125; Sample.r120; Sample.r110])
           (Sample.update_feed "win" "1.0.0") ∅
           [Sample.r120] Sample.r120 Sample.manifest_120
           (String.list_byte_of_string Sample.manifest_text));
    reflexivity.
Defined.

(** On the sample server the feed is one line: the hash, the package
    behind this server's download route, the size. *)
Example onUpdateWin_sample_feed :
  effects (onUpdateWin (Sample.server [Sample.r125; Sample.r120; Sample.r110])
             (Sample.update_feed "win" "1.0.0") ∅)
  = [EvFilter (mkQuery (Some "*") (Some "win_32") ">=1.0.0");
     EvReadAsset Sample.manifest_120;
     EvHeader "Content-Length" (HNum 107);
     EvAttachment "RELEASES";
     EvSend (Text ("94689fede03fed7ab59c24337673a27837f0c3ec "
                   +:+ "https://updates.acme.test/download/1.2.0/app-1.2.0-full.nupkg"
                   +:+ " 4096"))].
Proof. vm_compute. reflexivity. Qed.

(** ** Serving an asset: [serveAsset] *)

(** [serveAsset], case by case. *)
Lemma serveAsset_unfold (W : World) (req : Request) (version : Release)
    (asset : Asset) (c : Cache) :
  serveAsset W req version asset c =
  match before_download W (mkHookArg req version asset) with
  | Rejected e => mkRun [] c (Rejected e)
  | Fulfilled _ =>
      match c !! id asset with
      | Some stream =>
          mkRun (asset_headers asset ++ [EvCacheGetStream (id asset); EvPipe stream])
            c (after_download W (mkHookArg req version asset))
      | None =>
          match backend_getAssetStream W asset with
          | Fulfilled stream =>
              mkRun (asset_headers asset
                     ++ [EvGetAssetStream asset; EvCacheSet (id asset) stream;
                         EvPipe stream])
                (<[id asset := stream]> c)
                (after_download W (mkHookArg req version asset))
          | Rejected e =>
              mkRun (asset_headers asset ++ [EvGetAssetStream asset]) c (Rejected e)
          end
      end
  end.
Proof.
  unfold serveAsset, performQ, serveAsset_fn, then_, settle, effect, call,
    cache_has, cache_getStream, cache_set, outputStream, asset_headers.
  destruct (before_download W _) as [[]|e]; [|reflexivity]. cbn.
  destruct (c !! id asset) as [stream|] eqn:Hc; cbn.
  - rewrite Hc. cbn. reflexivity.
  - destruct (backend_getAssetStream W asset) as [stream|e]; reflexivity.
Qed.

(** [serveAsset] neither asks the index nor calls [next]. *)
Lemma serveAsset_effects (W : World) (req : Request) (version : Release)
    (asset : Asset) (c : Cache) (ev : Event) :
  ev ∈ effects (serveAsset W req version asset c) ->
  match ev with
  | EvResolve _ | EvFilter _ | EvReadAsset _ | EvNext _ => False
  | _ => True
  end.
Proof.
  rewrite serveAsset_unfold.
  destruct (before_download W _) as [[]|e]; cbn; [|by intros ?%elem_of_nil].
  destruct (c !! id asset) as [stream|]; cbn;
    [|destruct (backend_getAssetStream W asset) as [stream|e]; cbn];
    intros Hev; repeat (apply elem_of_cons in Hev as [->|Hev]; [exact I|]);
    by apply elem_of_nil in Hev.
Qed.

(** C3: serving goes by the asset's id.  When the cache holds an entry
    under that id the stored stream is piped to the response and the
    backend is not called; otherwise the stream is fetched from the
    backend, stored in the cache under the id and piped to the response. *)
Theorem serveAsset_keyed_by_id (W : World) (req : Request) (version : Release)
    (asset : Asset) (c : Cache) :
  before_download W (mkHookArg req version asset) = Fulfilled tt ->
  (forall stream,
     c !! id asset = Some stream ->
     effects (serveAsset W req version asset c)
     = asset_headers asset ++ [EvCacheGetStream (id asset); EvPipe stream]
     /\ cache_after (serveAsset W req version asset c) = c
     /\ forall a, EvGetAssetStream a ∉ effects (serveAsset W req version asset c))
  /\ (forall stream,
        c !! id asset = None ->
        backend_getAssetStream W asset = Fulfilled stream ->
        effects (serveAsset W req version asset c)
        = asset_headers asset
          ++ [EvGetAssetStream asset; EvCacheSet (id asset) stream; EvPipe stream]
        /\ cache_after (serveAsset W req version asset c) = <[id asset := stream]> c
        /\ cache_after (serveAsset W req version asset c) !! id asset = Some stream).
Proof.
  intros Hbefore. rewrite serveAsset_unfold, Hbefore. split.
  - intros stream ->. cbn. repeat split. intros a Hin.
    repeat (apply elem_of_cons in Hin as [?|Hin]; [discriminate|]).
    by apply elem_of_nil in Hin.
  - intros stream -> ->. cbn. repeat split. apply lookup_insert_eq.
Qed.

Lemma serveAsset_keyed_by_id_witness :
  (effects (serveAsset (Sample.server [Sample.r120]) (Sample.download_platform_only "osx")
              Sample.r120 Sample.osx_120 {[ 11%N := [Byte.x50; Byte.x4b] ]})
   = asset_headers Sample.osx_120 ++ [EvCacheGetStream 11; EvPipe [Byte.x50; Byte.x4b]])
  /\ (effects (serveAsset (Sample.server [Sample.r120]) (Sample.download_platform_only "osx")
                 Sample.r120 Sample.osx_120 ∅)
      = asset_headers Sample.osx_120
        ++ [EvGetAssetStream Sample.osx_120;
            EvCacheSet 11 [Byte.x50; Byte.x4b; Byte.x31; Byte.x31];
            EvPipe [Byte.x50; Byte.x4b; Byte.x31; Byte.x31]]).
Proof.
  split.
  - apply (serveAsset_keyed_by_id (Sample.server [Sample.r120])
             (Sample.download_platform_only "osx") Sample.r120 Sample.osx_120
             {[ 11%N := [Byte.x50; Byte.x4b] ]}); reflexivity.
  - apply (serveAsset_keyed_by_id (Sample.server [Sample.r120])
             (Sample.download_platform_only "osx") Sample.r120 Sample.osx_120 ∅);
      reflexivity.
Defined.

(** ** Downloads: [onDownload] *)

(** [versions] is not bound inside [onDownload]. *)
Lemma versions_unbound {A} (k : Promise A) :
  with_ident onDownload_scope "versions" k
  = throw (ReferenceError "versions is not defined").
Proof. reflexivity. Qed.

(** [onDownload], case by case. *)
Lemma onDownload_unfold (W : World) (req : Request) (c : Cache) :
  onDownload W req c =
  if negb (Js.truthy (p_filename (params req)))
     && negb (Js.truthy (download_platform W req))
  then mkRun [EvNext (Error "No platform specified and impossible to detect one")]
         c (Fulfilled tt)
  else
    match versions_resolve W (download_query W req) with
    | Rejected err =>
        mkRun [EvResolve (download_query W req); EvNext (download_failure req err)]
          c (Fulfilled tt)
    | Fulfilled version =>
        match download_asset W req version with
        | None =>
            mkRun [EvResolve (download_query W req);
                   EvNext (no_download W req version)] c (Fulfilled tt)
        | Some asset =>
            let r := serveAsset W req version asset c in
            mkRun (EvResolve (download_query W req) :: ended r) (cache_after r)
              (Fulfilled tt)
        end
    end.
Proof.
  unfold onDownload, download_query, download_asset, no_download,
    download_failure, ended.
  destruct (negb (Js.truthy (p_filename (params req)))
            && negb (Js.truthy (download_platform W req))); [reflexivity|].
  unfold fail_next, then_, fail_, call. cbn.
  destruct (versions_resolve W _) as [version|err]; cbn.
  - destruct (if Js.truthy (p_filename (params req)) then _ else _)
      as [asset|]; cbn; [|reflexivity].
    destruct (outcome (serveAsset W req version asset c));
      [by rewrite app_nil_r|reflexivity].
  - destruct (Js.truthy (download_channel req)
              || negb (String.eqb (download_tag req) "latest")); reflexivity.
Qed.

(** The index is asked once, with the query of the request. *)
Lemma onDownload_resolves_once (W : World) (req : Request) (c : Cache)
    (q : Query) :
  EvResolve q ∈ effects (onDownload W req c) -> q = download_query W req.
Proof.
  rewrite onDownload_unfold.
  destruct (negb (Js.truthy (p_filename (params req))) && _);
    [intros Hin; not_in_events Hin|].
  destruct (versions_resolve W (download_query W req)) as [version|err].
  - destruct (download_asset W req version) as [asset|]; cbn.
    + intros Hin. apply elem_of_cons in Hin as [Heq|Hin]; [by inversion Heq|].
      unfold ended in Hin. apply elem_of_app in Hin as [Hin|Hin].
      * by apply serveAsset_effects in Hin.
      * destruct (outcome _); not_in_events Hin.
    + intros Hin. apply elem_of_cons in Hin as [Heq|Hin]; [by inversion Heq|].
      not_in_events Hin.
  - cbn. intros Hin. apply elem_of_cons in Hin as [Heq|Hin]; [by inversion Heq|].
    not_in_events Hin.
Qed.

(** With a tag other than ["latest"] the query is on any channel. *)
Lemma download_channel_concrete_tag (req : Request) (t : string) :
  p_tag (params req) = Some t -> t <> EmptyString -> t <> "latest" ->
  download_tag req = t /\ download_channel req = Some "*".
Proof.
  intros Htag Hne Hlatest. unfold download_channel, download_tag.
  rewrite Htag. cbn.
  apply String.eqb_neq in Hne. rewrite Hne.
  apply String.eqb_neq in Hlatest. rewrite Hlatest. by split.
Qed.

(** When the platform is known or a file is named, the handler starts
    with its one query to the index. *)
Lemma onDownload_starts_with_query (W : World) (req : Request) (c : Cache) :
  Js.truthy (p_filename (params req)) || Js.truthy (download_platform W req) = true ->
  exists rest,
    effects (onDownload W req c) = EvResolve (download_query W req) :: rest
    /\ forall q, EvResolve q ∉ rest.
Proof.
  intros Hknown. rewrite onDownload_unfold.
  assert (Hcond : negb (Js.truthy (p_filename (params req)))
                  && negb (Js.truthy (download_platform W req)) = false).
  { destruct (Js.truthy (p_filename (params req))),
      (Js.truthy (download_platform W req)); try discriminate; reflexivity. }
  rewrite Hcond.
  destruct (versions_resolve W (download_query W req)) as [version|err].
  - destruct (download_asset W req version) as [asset|]; cbn.
    + eexists. split; [reflexivity|]. intros q Hin. unfold ended in Hin.
      apply elem_of_app in Hin as [Hin|Hin].
      * by apply serveAsset_effects in Hin.
      * destruct (outcome _); not_in_events Hin.
    + eexists. split; [reflexivity|]. intros q Hin. not_in_events Hin.
  - cbn. eexists. split; [reflexivity|]. intros q Hin. not_in_events Hin.
Qed.

(** C10: a download request with a tag other than ["latest"] is resolved
    on the wildcard channel, whatever channel the request names: once the
    platform is known or a file is named, the handler starts with the query
    for that tag on channel ["*"] and makes no other, and this is so for
    every value of the channel parameter; the query, hence the release the
    index answers with, and the asset picked in it are the same for every
    value of the channel parameter. *)
Theorem onDownload_concrete_tag_any_channel (W : World) (req : Request)
    (c : Cache) (t : string) :
  p_tag (params req) = Some t -> t <> EmptyString -> t <> "latest" ->
  download_query W req = mkQuery (Some "*") (download_platform W req) t
  /\ (forall q, EvResolve q ∈ effects (onDownload W req c) ->
                q_channel q = Some "*" /\ q_tag q = t)
  /\ (forall channel,
        download_query W (with_channel channel req) = download_query W req
        /\ versions_resolve W (download_query W (with_channel channel req))
           = versions_resolve W (download_query W req)
        /\ (forall version,
              download_asset W (with_channel channel req) version
              = download_asset W req version)
        /\ (forall q c',
              EvResolve q ∈ effects (onDownload W (with_channel channel req) c') ->
              q = download_query W req))
  /\ (Js.truthy (p_filename (params req)) || Js.truthy (download_platform W req) = true ->
      (exists rest,
         effects (onDownload W req c)
         = EvResolve (mkQuery (Some "*") (download_platform W req) t) :: rest
         /\ forall q, EvResolve q ∉ rest)
      /\ (forall channel c',
            exists rest,
              effects (onDownload W (with_channel channel req) c')
              = EvResolve (mkQuery (Some "*") (download_platform W req) t) :: rest
              /\ forall q, EvResolve q ∉ rest)).
Proof.
  intros Htag Hne Hlatest.
  destruct (download_channel_concrete_tag req t Htag Hne Hlatest) as [Ht Hc].
  assert (Hq : download_query W req = mkQuery (Some "*") (download_platform W req) t).
  { unfold download_query. by rewrite Ht, Hc. }
  assert (Hq' : forall channel,
             download_query W (with_channel channel req) = download_query W req).
  { intros channel.
    destruct (download_channel_concrete_tag (with_channel channel req) t
                Htag Hne Hlatest) as [Ht' Hc'].
    unfold download_query. rewrite Ht, Hc, Ht', Hc'. reflexivity. }
  split; [exact Hq|]. split; [|split].
  - intros q Hin. apply onDownload_resolves_once in Hin. subst q.
    rewrite Hq. by split.
  - intros channel.
    split; [apply Hq'|]. split; [by rewrite Hq'|]. split; [reflexivity|].
    intros q c' Hin. apply onDownload_resolves_once in Hin. rewrite Hin. apply Hq'.
  - intros Hknown. split.
    + rewrite <- Hq. by apply onDownload_starts_with_query.
    + intros channel c'. rewrite <- Hq, <- (Hq' channel).
      apply onDownload_starts_with_query. exact Hknown.
Qed.

Lemma onDownload_concrete_tag_any_channel_witness :
  download_query (Sample.server [Sample.r130b; Sample.r120])
    (with_channel (Some "beta") (Sample.download_version_platform "1.2.0" "osx"))
  = mkQuery (Some "*") (Some "osx") "1.2.0"
  /\ versions_resolve (Sample.server [Sample.r130b; Sample.r120])
       (download_query (Sample.server [Sample.r130b; Sample.r120])
          (with_channel (Some "beta")
             (Sample.download_version_platform "1.2.0" "osx")))
     = Fulfilled Sample.r120
  /\ exists rest,
       effects (onDownload (Sample.server [Sample.r130b; Sample.r120])
                  (with_channel (Some "beta")
                     (Sample.download_version_platform "1.2.0" "osx")) ∅)
       = EvResolve (mkQuery (Some "*") (Some "osx") "1.2.0") :: rest
       /\ forall q, EvResolve q ∉ rest.
Proof.
  destruct (onDownload_concrete_tag_any_channel
              (Sample.server [Sample.r130b; Sample.r120])
              (Sample.download_version_platform "1.2.0" "osx") ∅ "1.2.0")
    as (_ & _ & Hany & Hissued); [reflexivity|discriminate|discriminate|].
  destruct (Hany (Some "beta")) as (-> & _ & _ & _).
  split; [reflexivity|]. split; [reflexivity|].
  destruct (Hissued eq_refl) as [_ Hchannels].
  exact (Hchannels (Some "beta") ∅).
Defined.

(** With a file name the platform is set to [null]. *)
Lemma download_platform_filename (W : World) (req : Request) (f : string) :
  p_filename (params req) = Some f -> f <> EmptyString ->
  Js.truthy (p_filename (params req)) = true /\ download_platform W req = None.
Proof.
  intros Hf Hne. apply truthy_Some in Hne.
  unfold download_platform. rewrite Hf, Hne. by split.
Qed.

(** C9: a download request with a file name is resolved without a
    platform, the query's platform being [null], and the asset served is
    the asset of the resolved release found by its file name, equal to the
    requested one; the platform utilities have no part in it. *)
Theorem onDownload_by_filename (W : World) (req : Request) (c : Cache)
    (f : string) :
  p_filename (params req) = Some f -> f <> EmptyString ->
  q_platform (download_query W req) = None
  /\ (forall q, EvResolve q ∈ effects (onDownload W req c) -> q_platform q = None)
  /\ (forall version,
        versions_resolve W (download_query W req) = Fulfilled version ->
        match List.find (fun a => String.eqb (filename a) f) (platforms version) with
        | Some asset =>
            filename asset = f
            /\ In asset (platforms version)
            /\ onDownload W req c =
               mkRun (EvResolve (download_query W req)
                      :: ended (serveAsset W req version asset c))
                 (cache_after (serveAsset W req version asset c)) (Fulfilled tt)
        | None =>
            onDownload W req c =
            mkRun [EvResolve (download_query W req);
                   EvNext (no_download W req version)] c (Fulfilled tt)
        end)
  /\ (forall osx windows linux linux_64 detect resolve,
        onDownload (with_platforms W osx windows linux linux_64 detect resolve) req c
        = onDownload W req c).
Proof.
  intros Hf Hne.
  destruct (download_platform_filename W req f Hf Hne) as [Htruthy Hplatform].
  assert (Hasset : forall W' version,
             download_asset W' req version
             = List.find (fun a => String.eqb (filename a) f) (platforms version)).
  { intros W' version. unfold download_asset. by rewrite Htruthy, Hf. }
  split; [exact Hplatform|]. split; [|split].
  - intros q Hin. apply onDownload_resolves_once in Hin. by subst q.
  - intros version Hresolve.
    rewrite onDownload_unfold, Htruthy, Hresolve, Hasset. cbn.
    destruct (List.find _ (platforms version)) as [asset|] eqn:Hfind; [|reflexivity].
    apply List.find_some in Hfind as [Hin Heq].
    apply String.eqb_eq in Heq. by repeat split.
  - intros osx windows linux linux_64 detect resolve.
    destruct (download_platform_filename
                (with_platforms W osx windows linux linux_64 detect resolve)
                req f Hf Hne) as [_ Hplatform'].
    rewrite !onDownload_unfold, Htruthy. cbn [negb andb].
    unfold download_query, no_download. rewrite Hplatform, Hplatform'.
    cbn [versions_resolve with_platforms].
    destruct (versions_resolve W _) as [version|err]; [|reflexivity].
    rewrite !Hasset.
    destruct (List.find _ (platforms version)) as [asset|]; reflexivity.
Qed.

Lemma onDownload_by_filename_witness :
  effects (onDownload (Sample.server [Sample.r120; Sample.r110])
             (Sample.download_file "1.2.0" "app-1.2.0-full.nupkg") ∅)
  = EvResolve (mkQuery (Some "*") None "1.2.0")
    :: ended (serveAsset (Sample.server [Sample.r120; Sample.r110])
                (Sample.download_file "1.2.0" "app-1.2.0-full.nupkg")
                Sample.r120 Sample.nupkg_120 ∅).
Proof.
  destruct (onDownload_by_filename (Sample.server [Sample.r120; Sample.r110])
              (Sample.download_file "1.2.0" "app-1.2.0-full.nupkg") ∅
              "app-1.2.0-full.nupkg") as (_ & _ & Hserved & _);
    [reflexivity|discriminate|].
  specialize (Hserved Sample.r120 eq_refl).
  assert (Hfind : List.find (fun a => String.eqb (filename a) "app-1.2.0-full.nupkg")
                    (platforms Sample.r120) = Some Sample.nupkg_120) by reflexivity.
  rewrite Hfind in Hserved.
  destruct Hserved as (_ & _ & ->). reflexivity.
Defined.

(** ** The download fallback *)

(** C1, as amended: a download request for the latest release that names
    a channel is resolved once, on that channel; when that resolution
    fails, the failure is passed to the caller and no other channel is
    tried. *)
Theorem onDownload_named_channel_no_fallback (W : World) (req : Request)
    (c : Cache) (channel : string) (err : Js.error) :
  p_channel (params req) = Some channel -> channel <> EmptyString ->
  download_tag req = "latest" ->
  Js.truthy (p_filename (params req)) || Js.truthy (download_platform W req) = true ->
  versions_resolve W (download_query W req) = Rejected err ->
  download_query W req = mkQuery (Some channel) (download_platform W req) "latest"
  /\ onDownload W req c =
     mkRun [EvResolve (download_query W req); EvNext err] c (Fulfilled tt).
Proof.
  intros Hchannel Hne Hlatest Hknown Hresolve.
  assert (Hc : download_channel req = Some channel).
  { unfold download_channel. by rewrite Hlatest, Hchannel. }
  split.
  - unfold download_query. by rewrite Hc, Hlatest.
  - rewrite onDownload_unfold, Hresolve.
    destruct (Js.truthy (p_filename (params req))),
      (Js.truthy (download_platform W req)); try discriminate; cbn;
      unfold download_failure; rewrite Hc;
      apply truthy_Some in Hne; rewrite Hne; reflexivity.
Qed.

Lemma onDownload_named_channel_no_fallback_witness :
  onDownload (Sample.server [Sample.r130b])
    (Sample.download_channel_platform "stable" "osx") ∅
  = mkRun [EvResolve (mkQuery (Some "stable") (Some "osx") "latest");
           EvNext (Error "Version not found")] ∅ (Fulfilled tt).
Proof.
  apply (onDownload_named_channel_no_fallback (Sample.server [Sample.r130b])
           (Sample.download_channel_platform "stable" "osx") ∅ "stable"
           (Error "Version not found"));
    [reflexivity|discriminate|reflexivity|reflexivity|reflexivity].
Defined.

(** C1, as stated, fails: with 1.3.0-beta.1 as the only release, a
    request for the latest release on the channel [stable] is answered
    with "Version not found" after one query on [stable]; the index is not
    asked again on any channel, on which it would answer 1.3.0-beta.1. *)
Lemma onDownload_fallback_counterexample :
  ~ falls_back_to_any_channel (Sample.server [Sample.r130b])
      (Sample.download_channel_platform "stable" "osx") ∅.
Proof.
  intros Hclaim.
  destruct (Hclaim "stable" (Error "Version not found") Sample.r130b)
    as [Hretry _]; try reflexivity; try discriminate.
  apply onDownload_resolves_once in Hretry. discriminate.
Qed.

(** X10: a request that names no channel reaches the second resolution, which
    is written on the unbound name [versions]: the caller gets the
    ReferenceError instead of a release of another channel. *)
Lemma onDownload_unnamed_channel_fallback (W : World) (req : Request)
    (c : Cache) (err : Js.error) :
  Js.truthy (p_channel (params req)) = false ->
  download_tag req = "latest" ->
  Js.truthy (p_filename (params req)) || Js.truthy (download_platform W req) = true ->
  versions_resolve W (download_query W req) = Rejected err ->
  onDownload W req c =
  mkRun [EvResolve (download_query W req);
         EvNext (ReferenceError "versions is not defined")] c (Fulfilled tt).
Proof.
  intros Hchannel Hlatest Hknown Hresolve.
  rewrite onDownload_unfold, Hresolve.
  unfold download_failure, download_channel. rewrite Hlatest. cbn.
  rewrite Hchannel. cbn.
  destruct (Js.truthy (p_filename (params req))),
    (Js.truthy (download_platform W req)); try discriminate; reflexivity.
Qed.

Example onDownload_unnamed_channel_fallback_sample :
  onDownload (Sample.server [Sample.r130b]) (Sample.download_platform_only "osx") ∅
  = mkRun [EvResolve (mkQuery None (Some "osx") "latest");
           EvNext (ReferenceError "versions is not defined")] ∅ (Fulfilled tt).
Proof.
  apply (onDownload_unnamed_channel_fallback (Sample.server [Sample.r130b])
           (Sample.download_platform_only "osx") ∅ (Error "Version not found"));
    reflexivity.
Defined.

(** ** Callers of [serveAsset] that interleave *)

(** The two callbacks, run one after the other, are the function
    [serveAsset] hands to [performQ]. *)
Lemma serveAsset_fn_callbacks (W : World) (asset : Asset) (c : Cache) :
  serveAsset_fn W asset c =
  let r := serve_resume (serve_begin W asset c).2 c in
  mkRun ((serve_begin W asset c).1 ++ effects r) (cache_after r) (outcome r).
Proof.
  unfold serveAsset_fn, serve_begin, serve_resume, then_, settle, effect, call,
    cache_has, cache_getStream, cache_set, outputStream.
  cbn. destruct (c !! id asset) as [stream|] eqn:Hc; cbn.
  - rewrite Hc. reflexivity.
  - destruct (backend_getAssetStream W asset) as [stream|e]; reflexivity.
Qed.

Lemma run_ticks_app (W : World) (s : Server) (l1 l2 : list Tick) :
  run_ticks W s (l1 ++ l2) = run_ticks W (run_ticks W s l1) l2.
Proof. apply foldl_app. Qed.

Section Interleaving.

Context (W : World) (asset : Asset).

Local Abbreviation arrival := (arrival asset).
Local Abbreviation resumption := (resumption asset).

Lemma fetches_in_app (l1 l2 : list (nat * Event)) :
  fetches_in asset (l1 ++ l2) = fetches_in asset l1 + fetches_in asset l2.
Proof. unfold fetches_in. by rewrite List.filter_app, length_app. Qed.

Lemma fetches_in_arrival (i : nat) : fetches_in asset (arrival i) = 1.
Proof.
  unfold fetches_in, arrival, asset_headers. cbn.
  rewrite !bool_decide_eq_false_2 by discriminate.
  by rewrite bool_decide_eq_true_2.
Qed.

Lemma fetches_in_arrivals (callers : list nat) :
  fetches_in asset (flat_map arrival callers) = List.length callers.
Proof.
  induction callers as [|i callers IH]; [reflexivity|].
  cbn [flat_map]. rewrite fetches_in_app, fetches_in_arrival, IH. reflexivity.
Qed.

Lemma fetches_in_resumptions (stream : Bytes) (callers : list nat) :
  fetches_in asset (flat_map (resumption stream) callers) = 0.
Proof.
  induction callers as [|i callers IH]; [reflexivity|].
  cbn [flat_map]. rewrite fetches_in_app, IH.
  unfold fetches_in, resumption. cbn.
  by rewrite !bool_decide_eq_false_2 by discriminate.
Qed.

Lemma piped_to_app (i : nat) (l1 l2 : list (nat * Event)) :
  piped_to i (l1 ++ l2) = piped_to i l1 ++ piped_to i l2.
Proof. apply List.flat_map_app. Qed.

Lemma piped_to_arrivals (i : nat) (callers : list nat) :
  piped_to i (flat_map arrival callers) = [].
Proof. induction callers as [|j callers IH]; [reflexivity|exact IH]. Qed.

Lemma piped_to_resumption (stream : Bytes) (i j : nat) :
  piped_to i (resumption stream j) = if bool_decide (j = i) then [stream] else [].
Proof. unfold piped_to, resumption. cbn. by rewrite app_nil_r. Qed.

Lemma piped_to_resumptions_other (stream : Bytes) (i : nat) (callers : list nat) :
  i ∉ callers -> piped_to i (flat_map (resumption stream) callers) = [].
Proof.
  induction callers as [|j callers IH]; [reflexivity|].
  intros Hnotin. apply not_elem_of_cons in Hnotin as [Hne Hnotin].
  cbn [flat_map]. rewrite piped_to_app, piped_to_resumption, IH by exact Hnotin.
  by rewrite bool_decide_eq_false_2 by congruence.
Qed.

Lemma piped_to_resumptions (stream : Bytes) (i : nat) (callers : list nat) :
  NoDup callers -> i ∈ callers ->
  piped_to i (flat_map (resumption stream) callers) = [stream].
Proof.
  induction 1 as [|j callers Hj Hnodup IH]; [by intros ?%elem_of_nil|].
  intros Hin. cbn [flat_map]. rewrite piped_to_app, piped_to_resumption.
  apply elem_of_cons in Hin as [->|Hin].
  - rewrite bool_decide_eq_true_2 by reflexivity.
    by rewrite (piped_to_resumptions_other stream j callers Hj).
  - rewrite bool_decide_eq_false_2 by (intros ->; contradiction).
    by rewrite IH.
Qed.

(** While the key is not in the cache, every arriving caller calls the
    backend and waits for the stream of its own call. *)
Lemma run_arrivals (callers : list nat) (s : Server) :
  srv_cache s !! id asset = None ->
  run_ticks W s (map (fun i => Arrive i asset) callers) =
  mkServer (srv_cache s)
    (foldl (fun m i => <[i := FromBackend (id asset) (backend_getAssetStream W asset)]> m)
       (srv_waiting s) callers)
    (srv_log s ++ flat_map arrival callers).
Proof.
  revert s. induction callers as [|i callers IH]; intros s Hmiss.
  - cbn. rewrite app_nil_r. by destruct s.
  - cbn [map run_ticks foldl flat_map]. unfold run_ticks in IH.
    rewrite IH.
    + unfold tick, serve_begin. rewrite Hmiss. cbn.
      by rewrite <- app_assoc.
    + unfold tick, serve_begin. by rewrite Hmiss.
Qed.

Lemma waiting_after_arrivals (w : Waiting) (callers : list nat)
    (m : gmap nat Waiting) (i : nat) :
  i ∈ callers \/ m !! i = Some w ->
  foldl (fun m i => <[i := w]> m) m callers !! i = Some w.
Proof.
  revert m. induction callers as [|j callers IH]; intros m Hi; cbn.
  - destruct Hi as [Hin|Hm]; [by apply elem_of_nil in Hin|exact Hm].
  - apply IH. destruct (decide (i = j)) as [->|Hne].
    + right. apply lookup_insert_eq.
    + destruct Hi as [Hin|Hm].
      * apply elem_of_cons in Hin as [?|Hin]; [contradiction|by left].
      * right. by rewrite lookup_insert_ne.
Qed.

(** Every waiting caller stores the stream of its own call and pipes it
    to its own response. *)
Lemma run_resumptions (stream : Bytes) (callers : list nat) (s : Server) :
  NoDup callers ->
  (forall i, i ∈ callers ->
             srv_waiting s !! i = Some (FromBackend (id asset) (Fulfilled stream))) ->
  srv_log (run_ticks W s (map Resume callers))
  = srv_log s ++ flat_map (resumption stream) callers.
Proof.
  intros Hnodup. revert s.
  induction Hnodup as [|i callers Hi Hnodup IH]; intros s Hwaiting.
  - cbn. by rewrite app_nil_r.
  - cbn [map run_ticks foldl flat_map]. unfold run_ticks in IH.
    rewrite IH.
    + unfold tick. rewrite (Hwaiting i) by apply list_elem_of_here.
      cbn. by rewrite <- app_assoc.
    + intros j Hj. unfold tick.
      rewrite (Hwaiting i) by apply list_elem_of_here. cbn.
      rewrite lookup_delete_ne by (intros ->; contradiction).
      apply Hwaiting. by apply list_elem_of_further.
Qed.

End Interleaving.

(** C2, as amended: callers that ask for the same asset while it is not
    in the cache, before any of them has stored it, each call the backend:
    as many fetches are made as there are callers, and every caller is
    piped the stream of its own fetch. *)
Theorem serveAsset_one_fetch_per_caller (W : World) (asset : Asset)
    (c : Cache) (stream : Bytes) (callers : list nat) :
  c !! id asset = None ->
  NoDup callers ->
  backend_getAssetStream W asset = Fulfilled stream ->
  backend_fetches asset
    (run_ticks W (cold c) (map (fun i => Arrive i asset) callers))
  = List.length callers
  /\ backend_fetches asset
       (run_ticks W (cold c) (all_arrive_then_resume asset callers))
     = List.length callers
  /\ (forall i, i ∈ callers ->
        received i (run_ticks W (cold c) (all_arrive_then_resume asset callers))
        = [stream]).
Proof.
  intros Hmiss Hnodup Hstream.
  pose proof (run_arrivals W asset callers (cold c) Hmiss) as Harrived.
  assert (Hlog : srv_log (run_ticks W (cold c) (all_arrive_then_resume asset callers))
                 = flat_map (arrival asset) callers
                   ++ flat_map (resumption asset stream) callers).
  { unfold all_arrive_then_resume. rewrite run_ticks_app, Harrived.
    rewrite (run_resumptions W asset stream callers _ Hnodup); [reflexivity|].
    intros i Hi. cbn [srv_waiting]. rewrite Hstream.
    apply waiting_after_arrivals. by left. }
  unfold backend_fetches, received. rewrite Hlog, Harrived. cbn [srv_log cold].
  split; [apply fetches_in_arrivals|]. split.
  - by rewrite fetches_in_app, fetches_in_arrivals, fetches_in_resumptions.
  - intros i Hi.
    by rewrite piped_to_app, piped_to_arrivals, piped_to_resumptions.
Qed.

Lemma serveAsset_one_fetch_per_caller_witness :
  backend_fetches Sample.osx_120
    (run_ticks (Sample.server [Sample.r120]) (cold ∅)
       (all_arrive_then_resume Sample.osx_120 [0; 1; 2]))
  = 3.
Proof.
  apply (serveAsset_one_fetch_per_caller (Sample.server [Sample.r120])
           Sample.osx_120 ∅ [Byte.x50; Byte.x4b; Byte.x31; Byte.x31] [0; 1; 2]).
  - reflexivity.
  - refine (bool_decide_unpack _ _). vm_compute. exact I.
  - reflexivity.
Defined.

(** C2, as stated, fails: two callers that arrive for the same uncached
    asset before either has stored it make two backend fetches. *)
Lemma serveAsset_single_flight_counterexample :
  ~ single_flight (Sample.server [Sample.r120]) Sample.osx_120 ∅.
Proof.
  intros Hclaim.
  specialize (Hclaim eq_refl 0 1 ltac:(discriminate)).
  vm_compute in Hclaim. discriminate.
Qed.

(** ** More on [serveAsset] *)

(** X1: when an interceptor of the ['download'] hook refuses, the asset
    is not served: no header is set, the cache and the backend are not
    touched, and the download handler passes the interceptor's error to
    [next]. *)
Theorem serveAsset_refused_by_interceptor (W : World) (req : Request)
    (version : Release) (asset : Asset) (c : Cache) (e : Js.error) :
  before_download W (mkHookArg req version asset) = Rejected e ->
  serveAsset W req version asset c = mkRun [] c (Rejected e)
  /\ (Js.truthy (p_filename (params req)) || Js.truthy (download_platform W req) = true ->
      versions_resolve W (download_query W req) = Fulfilled version ->
      download_asset W req version = Some asset ->
      onDownload W req c =
      mkRun [EvResolve (download_query W req); EvNext e] c (Fulfilled tt)).
Proof.
  intros Hbefore.
  assert (Hserve : serveAsset W req version asset c = mkRun [] c (Rejected e)).
  { by rewrite serveAsset_unfold, Hbefore. }
  split; [exact Hserve|].
  intros Hknown Hresolve Hasset.
  rewrite onDownload_unfold, Hresolve, Hasset. cbn zeta.
  rewrite Hserve. unfold ended. cbn.
  destruct (Js.truthy (p_filename (params req))),
    (Js.truthy (download_platform W req)); try discriminate; reflexivity.
Qed.

Lemma serveAsset_refused_by_interceptor_witness :
  onDownload (refusing_server [Sample.r120]) (Sample.download_platform_only "osx") ∅
  = mkRun [EvResolve (mkQuery None (Some "osx") "latest");
           EvNext (Error "Forbidden")] ∅ (Fulfilled tt).
Proof.
  apply (serveAsset_refused_by_interceptor (refusing_server [Sample.r120])
           (Sample.download_platform_only "osx") Sample.r120 Sample.osx_120 ∅
           (Error "Forbidden")); reflexivity.
Defined.



(** X3: whatever the interceptors and the backend do, [serveAsset] calls
    the cache only under the id of the asset it serves and the backend only
    for that asset; it calls the backend at most once, [cache.set] at most
    once and pipes at most one stream, and it calls [cache.set] only with a
    stream it has just got from the backend. *)
Theorem serveAsset_calls_keyed_by_id (W : World) (req : Request)
    (version : Release) (asset : Asset) (c : Cache) :
  let evs := effects (serveAsset W req version asset c) in
  (forall ev, ev ∈ evs -> off_key asset ev = false)
  /\ count_events is_backend_call evs <= 1
  /\ count_events is_cache_set evs <= 1
  /\ count_events is_pipe evs <= 1
  /\ (forall key stream, EvCacheSet key stream ∈ evs ->
        key = id asset
        /\ backend_getAssetStream W asset = Fulfilled stream
        /\ EvGetAssetStream asset ∈ evs
        /\ c !! id asset = None).
Proof.
  cbn zeta. rewrite serveAsset_unfold.
  assert (Hself : N.eqb (id asset) (id asset) = true) by apply N.eqb_refl.
  assert (Hasset : bool_decide (asset = asset) = true)
    by (by apply bool_decide_eq_true_2).
  assert (Hnone : forall P : N -> Bytes -> Prop,
             (forall ev, ev ∈ @nil Event -> off_key asset ev = false)
             /\ count_events is_backend_call [] <= 1
             /\ count_events is_cache_set [] <= 1
             /\ count_events is_pipe [] <= 1
             /\ (forall key stream, EvCacheSet key stream ∈ @nil Event -> P key stream)).
  { intros P. repeat split; cbn; try lia.
    - by intros ? ?%elem_of_nil.
    - by intros ? ? ?%elem_of_nil. }
  destruct (before_download W _) as [[]|e]; [|apply Hnone].
  destruct (c !! id asset) as [stored|] eqn:Hc; cbn [effects asset_headers app].
  { split; [|split; [|split; [|split]]]; try (cbn; lia).
    - intros ev Hin.
      repeat (apply elem_of_cons in Hin as [->|Hin];
              [cbn; by rewrite ?Hself|]).
      by apply elem_of_nil in Hin.
    - intros key stream Hin. not_in_events Hin. }
  destruct (backend_getAssetStream W asset) as [stream|e];
    cbn [effects asset_headers app].
  - split; [|split; [|split; [|split]]]; try (cbn; lia).
    + intros ev Hin.
      repeat (apply elem_of_cons in Hin as [->|Hin];
              [cbn; by rewrite ?Hself, ?Hasset|]).
      by apply elem_of_nil in Hin.
    + intros key stream' Hin.
      do 3 (apply elem_of_cons in Hin as [?|Hin]; [discriminate|]).
      apply elem_of_cons in Hin as [Heq|Hin].
      * inversion Heq; subst. repeat split.
        do 2 apply list_elem_of_further. apply list_elem_of_here.
      * not_in_events Hin.
  - split; [|split; [|split; [|split]]]; try (cbn; lia).
    + intros ev Hin.
      repeat (apply elem_of_cons in Hin as [->|Hin];
              [cbn; by rewrite ?Hself, ?Hasset|]).
      by apply elem_of_nil in Hin.
    + intros key stream Hin. not_in_events Hin.
Qed.

(** X4: once an asset has been fetched and stored, an asset with the same
    id, be it another object after a refresh of the releases, is served
    from the cache: the stored stream is piped and the backend is not
    called. *)
Theorem serveAsset_second_serve_from_cache (W : World) (req req' : Request)
    (version version' : Release) (asset asset' : Asset) (c : Cache)
    (stream : Bytes) :
  before_download W (mkHookArg req version asset) = Fulfilled tt ->
  before_download W (mkHookArg req' version' asset') = Fulfilled tt ->
  c !! id asset = None ->
  backend_getAssetStream W asset = Fulfilled stream ->
  id asset' = id asset ->
  let c' := cache_after (serveAsset W req version asset c) in
  effects (serveAsset W req' version' asset' c')
  = asset_headers asset' ++ [EvCacheGetStream (id asset); EvPipe stream]
  /\ cache_after (serveAsset W req' version' asset' c') = c'.
Proof.
  intros Hbefore Hbefore' Hmiss Hstream Hid c'.
  assert (Hc' : c' = <[id asset := stream]> c).
  { unfold c'. by rewrite serveAsset_unfold, Hbefore, Hmiss, Hstream. }
  rewrite serveAsset_unfold, Hbefore', Hid, Hc', lookup_insert_eq.
  by split.
Qed.

Lemma serveAsset_second_serve_from_cache_witness :
  effects (serveAsset (Sample.server [Sample.r120]) (Sample.download_file "1.2.0" "app-1.2.0-osx.zip")
             Sample.r120 Sample.osx_120
             (cache_after (serveAsset (Sample.server [Sample.r120])
                             (Sample.download_platform_only "osx")
                             Sample.r120 Sample.osx_120 ∅)))
  = asset_headers Sample.osx_120
    ++ [EvCacheGetStream 11; EvPipe [Byte.x50; Byte.x4b; Byte.x31; Byte.x31]].
Proof.
  apply (serveAsset_second_serve_from_cache (Sample.server [Sample.r120])
           (Sample.download_platform_only "osx")
           (Sample.download_file "1.2.0" "app-1.2.0-osx.zip")
           Sample.r120 Sample.r120 Sample.osx_120 Sample.osx_120 ∅
           [Byte.x50; Byte.x4b; Byte.x31; Byte.x31]); reflexivity.
Defined.

(** ** More on [onDownload] *)

(** X5: a download request without a file name, without a platform and
    from a user agent that is none of Mac, Windows and Linux is answered
    with the error of the missing platform at once: the index is not
    asked and the cache is left as it was. *)
Theorem onDownload_no_platform (W : World) (req : Request) (c : Cache) :
  Js.truthy (p_filename (params req)) = false ->
  Js.truthy (p_platform (params req)) = false ->
  isMac (useragent req) = false -> isWindows (useragent req) = false ->
  isLinux (useragent req) = false -> isLinux64 (useragent req) = false ->
  onDownload W req c =
  mkRun [EvNext (Error "No platform specified and impossible to detect one")]
    c (Fulfilled tt).
Proof.
  intros Hf Hp Hmac Hwin Hlinux Hlinux64.
  rewrite onDownload_unfold.
  unfold download_platform, detect_useragent.
  rewrite Hf, Hp, Hmac, Hwin, Hlinux, Hlinux64. cbn. by rewrite Hp.
Qed.

Lemma onDownload_no_platform_witness :
  onDownload (Sample.server [Sample.r120])
    (Sample.get "/" Sample.no_params Sample.no_query) ∅
  = mkRun [EvNext (Error "No platform specified and impossible to detect one")]
      ∅ (Fulfilled tt).
Proof.
  apply (onDownload_no_platform (Sample.server [Sample.r120])
           (Sample.get "/" Sample.no_params Sample.no_query) ∅); reflexivity.
Defined.

(** X6: without a file name, a platform given in the route is used as it
    is, whatever the user agent; without one, the user agent decides, and
    when it matches several of the tests the later one wins: 64-bit Linux
    over Linux over Windows over Mac. *)
Theorem download_platform_precedence (W : World) (req : Request) :
  Js.truthy (p_filename (params req)) = false ->
  (Js.truthy (p_platform (params req)) = true ->
   download_platform W req = p_platform (params req))
  /\ (Js.truthy (p_platform (params req)) = false ->
      download_platform W req =
      if isLinux64 (useragent req) then Some (LINUX_64 W)
      else if isLinux (useragent req) then Some (LINUX W)
      else if isWindows (useragent req) then Some (WINDOWS W)
      else if isMac (useragent req) then Some (OSX W)
      else p_platform (params req)).
Proof.
  intros Hf. unfold download_platform, detect_useragent. rewrite Hf. cbn.
  split; intros ->; cbn; [reflexivity|].
  destruct (isLinux64 (useragent req)), (isLinux (useragent req)),
    (isWindows (useragent req)), (isMac (useragent req)); reflexivity.
Qed.

Lemma download_platform_precedence_witness :
  download_platform (Sample.server [])
    (mkRequest Sample.no_params Sample.no_query (mkUserAgent false false true true)
       "https" "updates.acme.test" "/")
  = Some "linux_64"
  /\ download_platform (Sample.server [])
       (mkRequest (mkParams None (Some "osx") None None None) Sample.no_query
          (mkUserAgent false true false false) "https" "updates.acme.test"
          "/download/osx")
     = Some "osx".
Proof.
  split.
  - apply (download_platform_precedence (Sample.server [])
             (mkRequest Sample.no_params Sample.no_query
                (mkUserAgent false false true true)
                "https" "updates.acme.test" "/")); reflexivity.
  - apply (download_platform_precedence (Sample.server [])
             (mkRequest (mkParams None (Some "osx") None None None) Sample.no_query
                (mkUserAgent false true false false) "https" "updates.acme.test"
                "/download/osx")); reflexivity.
Defined.

(** X7: without a file name the index is never asked without a platform:
    every query the download handler makes carries a platform that is
    neither [null] nor empty. *)
Theorem onDownload_platform_required (W : World) (req : Request) (c : Cache)
    (q : Query) :
  Js.truthy (p_filename (params req)) = false ->
  EvResolve q ∈ effects (onDownload W req c) ->
  Js.truthy (q_platform q) = true.
Proof.
  intros Hf Hin.
  pose proof (onDownload_resolves_once W req c q Hin) as ->.
  rewrite onDownload_unfold, Hf in Hin. cbn [negb andb] in Hin.
  cbn [download_query q_platform].
  destruct (Js.truthy (download_platform W req)); [reflexivity|].
  cbn in Hin. apply list_elem_of_singleton in Hin. discriminate.
Qed.

Lemma onDownload_platform_required_witness :
  Js.truthy (q_platform (mkQuery None (Some "osx") "latest")) = true.
Proof.
  apply (onDownload_platform_required (Sample.server [Sample.r120])
           (Sample.download_platform_only "osx") ∅
           (mkQuery None (Some "osx") "latest")).
  - reflexivity.
  - refine (bool_decide_unpack _ _). vm_compute. exact I.
Defined.

(** X8: a download of a given tag that the index cannot resolve is
    answered with the index's own error, after the one query on any
    channel. *)
Theorem onDownload_concrete_tag_failure (W : World) (req : Request) (c : Cache)
    (t : string) (err : Js.error) :
  p_tag (params req) = Some t -> t <> EmptyString -> t <> "latest" ->
  Js.truthy (p_filename (params req)) || Js.truthy (download_platform W req) = true ->
  versions_resolve W (mkQuery (Some "*") (download_platform W req) t) = Rejected err ->
  onDownload W req c =
  mkRun [EvResolve (mkQuery (Some "*") (download_platform W req) t); EvNext err]
    c (Fulfilled tt).
Proof.
  intros Htag Hne Hlatest Hknown Hresolve.
  destruct (download_channel_concrete_tag req t Htag Hne Hlatest) as [Ht Hc].
  rewrite onDownload_unfold. unfold download_query, download_failure.
  rewrite Ht, Hc, Hresolve. cbn.
  destruct (Js.truthy (p_filename (params req))),
    (Js.truthy (download_platform W req)); try discriminate; reflexivity.
Qed.

Lemma onDownload_concrete_tag_failure_witness :
  onDownload (Sample.server [Sample.r120])
    (Sample.download_version_platform "9.9.9" "osx") ∅
  = mkRun [EvResolve (mkQuery (Some "*") (Some "osx") "9.9.9");
           EvNext (Error "Version not found")] ∅ (Fulfilled tt).
Proof.
  apply (onDownload_concrete_tag_failure (Sample.server [Sample.r120])
           (Sample.download_version_platform "9.9.9" "osx") ∅ "9.9.9"
           (Error "Version not found"));
    [reflexivity|discriminate|discriminate|reflexivity|reflexivity].
Defined.

(** X9: when the resolved release has no asset with the requested file
    name, nothing is served and the error passed to [next] names the
    platform [null], the tag of the release and, in brackets, the channel
    of the query: ["*"] for a tag other than ["latest"], the channel of the
    request for ["latest"], and [beta] for ["latest"] without a channel;
    the file name is not in it. *)
Theorem onDownload_file_not_found (W : World) (req : Request) (c : Cache)
    (f : string) (version : Release) :
  p_filename (params req) = Some f -> f <> EmptyString ->
  versions_resolve W (download_query W req) = Fulfilled version ->
  List.find (fun a => String.eqb (filename a) f) (platforms version) = None ->
  onDownload W req c =
  mkRun [EvResolve (download_query W req);
         EvNext (Error ("No download available for platform null for version "
                        +:+ tag version +:+ " ("
                        +:+ Js.or_default (download_channel req) "beta" +:+ ")"))]
    c (Fulfilled tt)
  /\ (forall t, p_tag (params req) = Some t -> t <> EmptyString -> t <> "latest" ->
        Js.or_default (download_channel req) "beta" = "*")
  /\ (download_tag req = "latest" ->
      Js.truthy (p_channel (params req)) = false ->
      Js.or_default (download_channel req) "beta" = "beta")
  /\ (forall channel, download_tag req = "latest" ->
        p_channel (params req) = Some channel -> channel <> EmptyString ->
        Js.or_default (download_channel req) "beta" = channel).
Proof.
  intros Hf Hne Hresolve Hfind.
  destruct (download_platform_filename W req f Hf Hne) as [Htruthy Hplatform].
  split; [|split; [|split]].
  - rewrite onDownload_unfold, Htruthy, Hresolve. cbn [negb andb].
    unfold download_asset, no_download. rewrite Htruthy, Hf, Hplatform. cbn.
    by rewrite Hfind.
  - intros t Htag Htne Hlatest.
    by destruct (download_channel_concrete_tag req t Htag Htne Hlatest) as [_ ->].
  - intros Hlatest Hchannel. unfold download_channel. rewrite Hlatest. cbn.
    destruct (p_channel (params req)) as [ch|]; [|reflexivity].
    cbn in *. by destruct (String.eqb ch EmptyString).
  - intros channel Hlatest Hgiven Hchannel. unfold download_channel.
    rewrite Hlatest, Hgiven. cbn.
    apply String.eqb_neq in Hchannel. by rewrite Hchannel.
Qed.

Lemma onDownload_file_not_found_witness :
  onDownload (Sample.server [Sample.r120])
    (Sample.download_file "latest" "app.dmg") ∅
  = mkRun [EvResolve (mkQuery None None "latest");
           EvNext (Error "No download available for platform null for version 1.2.0 (beta)")]
      ∅ (Fulfilled tt)
  /\ onDownload (Sample.server [Sample.r120])
       (Sample.download_file "1.2.0" "missing.dmg") ∅
     = mkRun [EvResolve (mkQuery (Some "*") None "1.2.0");
              EvNext (Error "No download available for platform null for version 1.2.0 (*)")]
         ∅ (Fulfilled tt).
Proof.
  split.
  - apply (onDownload_file_not_found (Sample.server [Sample.r120])
             (Sample.download_file "latest" "app.dmg") ∅ "app.dmg" Sample.r120);
      [reflexivity|discriminate|reflexivity|reflexivity].
  - apply (onDownload_file_not_found (Sample.server [Sample.r120])
             (Sample.download_file "1.2.0" "missing.dmg") ∅ "missing.dmg"
             Sample.r120);
      [reflexivity|discriminate|reflexivity|reflexivity].
Defined.

(** ** More on the update handlers *)

(** [onUpdateOSX], case by case. *)
Lemma onUpdateOSX_cases (W : World) (req : Request) (c : Cache) :
  let version := Js.concat_null (p_version (params req)) in
  let platform := Js.concat_null (p_platform (params req)) in
  onUpdateOSX W req c =
  mkRun
    (if negb (Js.truthy (p_version (params req))) then [EvNext (requires "version")]
     else if negb (Js.truthy (p_platform (params req)))
     then [EvNext (requires "platform")]
     else
       EvFilter (update_query W platform version) ::
       match versions_filter W (update_query W platform version) with
       | Rejected e => [EvNext e]
       | Fulfilled versions =>
           match head versions with
           | None => no_updates
           | Some latest =>
               if String.eqb (tag latest) version then no_updates
               else update_available W req platform versions latest
           end
       end) c (Fulfilled tt).
Proof.
  unfold onUpdateOSX, update_query, requires, fail_next, then_, fulfil, throw,
    effect, call. cbn.
  destruct (Js.truthy (p_version (params req))); [|reflexivity].
  destruct (Js.truthy (p_platform (params req))); [|reflexivity]. cbn.
  destruct (versions_filter W _) as [versions|e]; [|reflexivity]. cbn.
  destruct versions as [|latest rest]; [reflexivity|]. cbn.
  destruct (String.eqb (tag latest) _); reflexivity.
Qed.

(** X13: the Mac-style update check refuses a request without a version
    or without a platform before it asks the index, and passes a failure of
    the index to [next] without answering. *)
Theorem onUpdateOSX_failures (W : World) (req : Request) (c : Cache) :
  (Js.truthy (p_version (params req)) = false ->
   onUpdateOSX W req c = mkRun [EvNext (requires "version")] c (Fulfilled tt))
  /\ (Js.truthy (p_version (params req)) = true ->
      Js.truthy (p_platform (params req)) = false ->
      onUpdateOSX W req c = mkRun [EvNext (requires "platform")] c (Fulfilled tt))
  /\ (forall platform version e,
        p_platform (params req) = Some platform -> platform <> EmptyString ->
        p_version (params req) = Some version -> version <> EmptyString ->
        versions_filter W (update_query W platform version) = Rejected e ->
        onUpdateOSX W req c =
        mkRun [EvFilter (update_query W platform version); EvNext e] c
          (Fulfilled tt)).
Proof.
  rewrite onUpdateOSX_cases. cbn zeta. repeat split.
  - by intros ->.
  - by intros -> ->.
  - intros platform version e -> Hp -> Hv Hfilter.
    apply truthy_Some in Hp, Hv. rewrite Hp, Hv. cbn. by rewrite Hfilter.
Qed.

Lemma onUpdateOSX_failures_witness :
  onUpdateOSX (Sample.server [Sample.r120])
    (Sample.get "/update/osx/" (mkParams None (Some "osx") None None None)
       Sample.no_query) ∅
  = mkRun [EvNext (requires "version")] ∅ (Fulfilled tt).
Proof.
  apply (onUpdateOSX_failures (Sample.server [Sample.r120])
           (Sample.get "/update/osx/" (mkParams None (Some "osx") None None None)
              Sample.no_query) ∅).
  reflexivity.
Defined.

(** X15: the Windows-style feed passes to [next], without answering, the
    index's error, "Version not found" when no release matches, "File not
    found" when the newest matching release has no RELEASES asset, the
    backend's error when the asset cannot be read and the codec's error
    when it cannot be parsed. *)
Theorem onUpdateWin_failures (W : World) (req : Request) (c : Cache) :
  (forall e, versions_filter W (win_query W req) = Rejected e ->
     onUpdateWin W req c = mkRun [EvFilter (win_query W req); EvNext e] c (Fulfilled tt))
  /\ (versions_filter W (win_query W req) = Fulfilled [] ->
      onUpdateWin W req c =
      mkRun [EvFilter (win_query W req); EvNext (Error "Version not found")] c
        (Fulfilled tt))
  /\ (forall latest rest,
        versions_filter W (win_query W req) = Fulfilled (latest :: rest) ->
        find_manifest latest = None ->
        onUpdateWin W req c =
        mkRun [EvFilter (win_query W req); EvNext (Error "File not found")] c
          (Fulfilled tt))
  /\ (forall latest rest asset e,
        versions_filter W (win_query W req) = Fulfilled (latest :: rest) ->
        find_manifest latest = Some asset ->
        backend_readAsset W asset = Rejected e ->
        onUpdateWin W req c =
        mkRun [EvFilter (win_query W req); EvReadAsset asset; EvNext e] c
          (Fulfilled tt))
  /\ (forall latest rest asset content e,
        versions_filter W (win_query W req) = Fulfilled (latest :: rest) ->
        find_manifest latest = Some asset ->
        backend_readAsset W asset = Fulfilled content ->
        winReleases_parse W (toString_utf8 W content) = Rejected e ->
        onUpdateWin W req c =
        mkRun [EvFilter (win_query W req); EvReadAsset asset; EvNext e] c
          (Fulfilled tt)).
Proof.
  rewrite onUpdateWin_unfold. repeat split.
  - by intros e ->.
  - by intros ->.
  - intros latest rest ->. change (head (latest :: rest)) with (Some latest). cbv beta iota.
    by intros ->.
  - intros latest rest asset e ->. change (head (latest :: rest)) with (Some latest). cbv beta iota.
    by intros -> ->.
  - intros latest rest asset content e ->.
    change (head (latest :: rest)) with (Some latest). cbv beta iota.
    by intros -> -> ->.
Qed.

Lemma onUpdateWin_failures_witness :
  onUpdateWin (Sample.server [Sample.r125; Sample.r110])
    (Sample.update_feed "win" "1.0.0") ∅
  = mkRun [EvFilter (mkQuery (Some "*") (Some "win_32") ">=1.0.0");
           EvNext (Error "Version not found")] ∅ (Fulfilled tt).
Proof.
  apply (onUpdateWin_failures (Sample.server [Sample.r125; Sample.r110])
           (Sample.update_feed "win" "1.0.0") ∅).
  reflexivity.
Defined.

(** The update handlers end either with answers on the response or with
    one [next(err)], never with both. *)
Lemma answered_or_reported (evs : list Event) :
  (evs = [] \/ exists ev evs', evs = ev :: evs' /\ Forall (fun x => is_next x = false) (ev :: evs'))
  \/ (exists pre e, evs = pre ++ [EvNext e]
                    /\ Forall (fun x => is_next x = false /\ on_response x = false) pre) ->
  reports_at_most_once evs
  /\ ((exists e, EvNext e ∈ evs) -> forall ev, ev ∈ evs -> on_response ev = false).
Proof.
  intros [Hanswered|(pre & e & -> & Hpre)].
  - assert (Hnone : forall e, EvNext e ∉ evs).
    { intros e Hin. destruct Hanswered as [->|(ev & evs' & -> & Hall)].
      - by apply elem_of_nil in Hin.
      - rewrite Forall_forall in Hall. by apply Hall in Hin. }
    split; [by left|]. intros [e He]. by apply Hnone in He.
  - rewrite Forall_forall in Hpre. split.
    + right. exists pre, e. split; [reflexivity|].
      intros e' Hin. by apply Hpre in Hin as [? _].
    + intros _ ev Hin. apply elem_of_app in Hin as [Hin|Hin].
      * by apply Hpre in Hin as [_ ?].
      * apply list_elem_of_singleton in Hin. by subst ev.
Qed.

Ltac answered := left; right; do 2 eexists; split; [reflexivity|]; by repeat constructor.
Ltac reported pre := right; exists pre; eexists; split; [reflexivity|]; by repeat constructor.

(** X16: each of the three update handlers, on every request and whatever
    the index and the backend do, ends fulfilled, calls [next] at most once
    and as its last effect, and when it calls [next] it has set no header,
    status or body on the response. *)
Theorem update_handlers_answer_or_report (W : World) (req : Request) (c : Cache) :
  (outcome (onUpdate req c) = Fulfilled tt
   /\ reports_at_most_once (effects (onUpdate req c))
   /\ ((exists e, EvNext e ∈ effects (onUpdate req c)) ->
       forall ev, ev ∈ effects (onUpdate req c) -> on_response ev = false))
  /\ (outcome (onUpdateOSX W req c) = Fulfilled tt
      /\ reports_at_most_once (effects (onUpdateOSX W req c))
      /\ ((exists e, EvNext e ∈ effects (onUpdateOSX W req c)) ->
          forall ev, ev ∈ effects (onUpdateOSX W req c) -> on_response ev = false))
  /\ (outcome (onUpdateWin W req c) = Fulfilled tt
      /\ reports_at_most_once (effects (onUpdateWin W req c))
      /\ ((exists e, EvNext e ∈ effects (onUpdateWin W req c)) ->
          forall ev, ev ∈ effects (onUpdateWin W req c) -> on_response ev = false)).
Proof.
  split; [|split].
  - assert (Hout : outcome (onUpdate req c) = Fulfilled tt).
    { unfold onUpdate, fail_next, then_, fulfil, throw, effect, call. cbn.
      destruct (Js.truthy (qs_version (query req)));
        [destruct (Js.truthy (qs_platform (query req)))|]; reflexivity. }
    split; [exact Hout|]. apply answered_or_reported.
    unfold onUpdate, fail_next, then_, fulfil, throw, effect, call. cbn.
    destruct (Js.truthy (qs_version (query req)));
      [destruct (Js.truthy (qs_platform (query req)))|]; cbn;
      [answered|reported (@nil Event)|reported (@nil Event)].
  - rewrite onUpdateOSX_cases. cbn zeta. split; [reflexivity|].
    apply answered_or_reported. cbn [effects].
    destruct (Js.truthy (p_version (params req))); cbn;
      [|reported (@nil Event)].
    destruct (Js.truthy (p_platform (params req))); cbn;
      [|reported (@nil Event)].
    destruct (versions_filter W _) as [versions|e];
      [|reported [EvFilter (update_query W (Js.concat_null (p_platform (params req)))
                              (Js.concat_null (p_version (params req))))]].
    destruct (head versions) as [latest|]; [|answered].
    destruct (String.eqb (tag latest) _); answered.
  - rewrite onUpdateWin_unfold. split; [reflexivity|].
    apply answered_or_reported. cbn [effects].
    destruct (versions_filter W (win_query W req)) as [versions|e];
      [|reported [EvFilter (win_query W req)]].
    destruct (head versions) as [latest|];
      [|reported [EvFilter (win_query W req)]].
    destruct (find_manifest latest) as [asset|];
      [|reported [EvFilter (win_query W req)]].
    destruct (backend_readAsset W asset) as [content|e];
      [|reported [EvFilter (win_query W req); EvReadAsset asset]].
    destruct (winReleases_parse W (toString_utf8 W content)) as [entries|e];
      [answered|reported [EvFilter (win_query W req); EvReadAsset asset]].
Qed.

(** X14: when the release the client runs is the oldest of the matching
    releases and the only one with its tag, the notes of the update are
    merged from exactly the matching releases other than that one. *)
Theorem onUpdateOSX_notes_without_queried (W : World) (req : Request) (c : Cache)
    (platform version : string) (latest current : Release)
    (between : list Release) :
  p_platform (params req) = Some platform ->
  p_version (params req) = Some version ->
  platform <> EmptyString -> version <> EmptyString ->
  versions_filter W (update_query W platform version)
  = Fulfilled ((latest :: between) ++ [current]) ->
  tag current = version ->
  Forall (fun r => tag r <> version) (latest :: between) ->
  exists info,
    effects (onUpdateOSX W req c)
    = [EvFilter (update_query W platform version); EvStatus 200; EvSend (Json info)]
    /\ u_name info = tag latest
    /\ u_notes info
       = notes_merge W (without_tag version ((latest :: between) ++ [current])) false
    /\ without_tag version ((latest :: between) ++ [current]) = latest :: between.
Proof.
  intros Hp Hv Hpne Hvne Hfilter Hcurrent Hnewer.
  pose proof (slice_0_m1_without_queried version (latest :: between) current
                Hcurrent Hnewer) as Hslice.
  pose proof (slice_0_m1_app (latest :: between) current) as Hdrop.
  rewrite (onUpdateOSX_unfold W req c platform version Hp Hv Hpne Hvne _ Hfilter).
  set (versions := (latest :: between) ++ [current]) in *.
  assert (Hhead : head versions = Some latest) by reflexivity.
  assert (Hlatest : String.eqb (tag latest) version = false).
  { apply String.eqb_neq. by inversion Hnewer. }
  rewrite Hhead, Hlatest. unfold update_available. cbn [effects].
  eexists. split; [reflexivity|]. cbn [u_name u_notes]. split; [reflexivity|].
  split; [by rewrite Hslice|by rewrite <- Hslice].
Qed.

Lemma onUpdateOSX_notes_without_queried_witness :
  exists info,
    effects (onUpdateOSX (Sample.server [Sample.r125; Sample.r120; Sample.r110])
               (Sample.update_check "osx" "1.1.0") ∅)
    = [EvFilter (mkQuery (Some "*") (Some "osx") ">=1.1.0"); EvStatus 200;
       EvSend (Json info)]
    /\ u_name info = "1.2.5"
    /\ u_notes info
       = Notes.merge (without_tag "1.1.0" [Sample.r125; Sample.r120; Sample.r110]) false
    /\ without_tag "1.1.0" [Sample.r125; Sample.r120; Sample.r110]
       = [Sample.r125; Sample.r120].
Proof.
  apply (onUpdateOSX_notes_without_queried
           (Sample.server [Sample.r125; Sample.r120; Sample.r110])
           (Sample.update_check "osx" "1.1.0") ∅ "osx" "1.1.0"
           Sample.r125 Sample.r110 [Sample.r120]);
    [reflexivity|reflexivity|discriminate|discriminate|reflexivity|reflexivity|].
  repeat constructor; discriminate.
Defined.

(** X11: the download handler, on every request and whatever the index,
    the backend and the interceptors do, ends fulfilled, asks the index at
    most once, and calls [next] at most once and as its last effect. *)
Theorem onDownload_reports_at_most_once (W : World) (req : Request) (c : Cache) :
  outcome (onDownload W req c) = Fulfilled tt
  /\ reports_at_most_once (effects (onDownload W req c))
  /\ (forall pre q post,
        effects (onDownload W req c) = pre ++ EvResolve q :: post ->
        pre = [] /\ forall q', EvResolve q' ∉ post).
Proof.
  rewrite onDownload_unfold.
  destruct (negb (Js.truthy (p_filename (params req))) && _).
  { split; [reflexivity|]. split.
    - right. exists [], (Error "No platform specified and impossible to detect one").
      split; [reflexivity|]. by intros e' ?%elem_of_nil.
    - intros [|ev pre] q post Heq; cbn in Heq; [discriminate|].
      inversion Heq as [[Hev Hrest]]. by destruct pre. }
  assert (Hfirst : forall (rest : list Event) pre q post,
             (forall q', EvResolve q' ∉ rest) ->
             EvResolve (download_query W req) :: rest = pre ++ EvResolve q :: post ->
             pre = [] /\ forall q', EvResolve q' ∉ post).
  { intros rest [|ev pre] q post Hrest Heq; cbn in Heq.
    - inversion Heq; subst. by split.
    - inversion Heq as [[Hev Hpost]]. exfalso. apply (Hrest q).
      rewrite Hpost. apply elem_of_app. right. by left. }
  destruct (versions_resolve W (download_query W req)) as [version|err].
  - destruct (download_asset W req version) as [asset|]; cbn.
    + split; [reflexivity|].
      assert (Hserved : forall ev,
                 ev ∈ effects (serveAsset W req version asset c) ->
                 match ev with
                 | EvResolve _ | EvNext _ => False
                 | _ => True
                 end).
      { intros ev Hin. apply serveAsset_effects in Hin. by destruct ev. }
      unfold ended. split.
      * destruct (outcome (serveAsset W req version asset c)) as [[]|e].
        -- left. intros e Hin. rewrite app_nil_r in Hin.
           apply elem_of_cons in Hin as [?|Hin]; [discriminate|].
           by apply Hserved in Hin.
        -- right. exists (EvResolve (download_query W req)
                          :: effects (serveAsset W req version asset c)), e.
           split; [reflexivity|]. intros e' Hin.
           apply elem_of_cons in Hin as [?|Hin]; [discriminate|].
           by apply Hserved in Hin.
      * intros pre q post. apply Hfirst. intros q' Hin.
        apply elem_of_app in Hin as [Hin|Hin]; [by apply Hserved in Hin|].
        destruct (outcome _); not_in_events Hin.
    + split; [reflexivity|]. split.
      * right. exists [EvResolve (download_query W req)], (no_download W req version).
        split; [reflexivity|]. intros e' Hin. not_in_events Hin.
      * intros pre q post. apply Hfirst. intros q' Hin. not_in_events Hin.
  - cbn. split; [reflexivity|]. split.
    + right. exists [EvResolve (download_query W req)], (download_failure req err).
      split; [reflexivity|]. intros e' Hin. not_in_events Hin.
    + intros pre q post. apply Hfirst. intros q' Hin. not_in_events Hin.
Qed.

(** ** The GitHub backend's requests *)

(** X21: the request for an asset is a GET of the asset's own locator as
    an octet stream.  With a token it carries the token in an
    Authorization header and no user name or password; without a token it
    carries no Authorization header, and the user name and password, sent
    at once, exactly when a user name is configured. *)
Theorem getAssetStream_credentials (opts : GitHubBackend.Opts) (asset : Asset) :
  let r := GitHubBackend.getAssetStream_options opts asset in
  GitHubBackend.uri r = raw_url asset
  /\ GitHubBackend.method r = "get"
  /\ ("User-Agent", "nuts") ∈ GitHubBackend.headers r
  /\ ("Accept", "application/octet-stream") ∈ GitHubBackend.headers r
  /\ (Js.truthy (GitHubBackend.token opts) = true ->
      GitHubBackend.auth r = None
      /\ header_names r = ["User-Agent"; "Accept"; "Authorization"]
      /\ ("Authorization",
          "token " +:+ Js.concat_undefined (GitHubBackend.token opts))
         ∈ GitHubBackend.headers r)
  /\ (Js.truthy (GitHubBackend.token opts) = false ->
      header_names r = ["User-Agent"; "Accept"]
      /\ GitHubBackend.auth r
         = if Js.truthy (GitHubBackend.username opts)
           then Some (GitHubBackend.mkAuth (GitHubBackend.username opts)
                        (GitHubBackend.password opts) true)
           else None).
Proof.
  unfold GitHubBackend.getAssetStream_options, header_names. cbn zeta.
  destruct (Js.truthy (GitHubBackend.token opts));
    [|destruct (Js.truthy (GitHubBackend.username opts))]; cbn;
    repeat split; try discriminate; try reflexivity;
    try (by intros _; repeat split; repeat constructor);
    by repeat constructor.
Qed.

(** ** The notes route: [onServeNotes] *)

(** [onServeNotes], case by case. *)
Lemma onServeNotes_cases (W : World) (plain : list Release -> string)
    (accepted : Accepted) (req : Request) (c : Cache) :
  onServeNotes W plain accepted req c =
  match versions_filter W (notes_query req) with
  | Rejected e => mkRun [EvFilter (notes_query req); EvNext e] c (Fulfilled None)
  | Fulfilled versions =>
      match head versions with
      | None =>
          mkRun [EvFilter (notes_query req); EvNext (Error "No versions matching")]
            c (Fulfilled None)
      | Some latest =>
          match accepted with
          | TextPlain =>
              mkRun [EvFilter (notes_query req)] c
                (Fulfilled (Some (SentText (plain versions))))
          | ApplicationJson =>
              mkRun [EvFilter (notes_query req)] c
                (Fulfilled (Some (SentNotes (notes_merge W versions false)
                                    (toISOString W (published_at latest)))))
          | NoneAcceptable =>
              mkRun [EvFilter (notes_query req);
                     EvNext (ReferenceError "releaseNotes is not defined")]
                c (Fulfilled None)
          end
      end
  end.
Proof.
  unfold onServeNotes, fail_next_keep, then_, fulfil, throw, call. cbn.
  destruct (versions_filter W (notes_query req)) as [versions|e]; [|reflexivity].
  cbn. destruct (head versions) as [latest|]; [|reflexivity].
  destruct accepted; reflexivity.
Qed.

(** X17: when the client accepts neither plain text nor JSON, the notes
    route sends nothing: its default answer reads the unbound name
    [releaseNotes], and the ReferenceError goes to [next]. *)
Theorem onServeNotes_default_format_fails (W : World)
    (plain : list Release -> string) (req : Request) (c : Cache)
    (latest : Release) (older : list Release) :
  versions_filter W (notes_query req) = Fulfilled (latest :: older) ->
  onServeNotes W plain NoneAcceptable req c =
  mkRun [EvFilter (notes_query req);
         EvNext (ReferenceError "releaseNotes is not defined")] c (Fulfilled None).
Proof. intros Hfilter. by rewrite onServeNotes_cases, Hfilter. Qed.

Lemma onServeNotes_default_format_fails_witness :
  onServeNotes (Sample.server [Sample.r120; Sample.r110])
    (fun versions => Notes.merge versions true) NoneAcceptable
    (Sample.get "/notes" Sample.no_params Sample.no_query) ∅
  = mkRun [EvFilter (mkQuery (Some "*") None "*");
           EvNext (ReferenceError "releaseNotes is not defined")] ∅ (Fulfilled None).
Proof.
  apply (onServeNotes_default_format_fails (Sample.server [Sample.r120; Sample.r110])
           (fun versions => Notes.merge versions true)
           (Sample.get "/notes" Sample.no_params Sample.no_query) ∅
           Sample.r120 [Sample.r110]).
  reflexivity.
Defined.

(** X18: the notes route asks for the releases of any channel and any
    platform, from the given version upwards or all of them without one;
    it answers with the notes merged from every release the index returns,
    the oldest included, as text or, with the publish date of the newest,
    as JSON. *)
Theorem onServeNotes_merges_all (W : World) (plain : list Release -> string)
    (req : Request) (c : Cache) (latest : Release) (older : list Release) :
  versions_filter W (notes_query req) = Fulfilled (latest :: older) ->
  q_channel (notes_query req) = Some "*"
  /\ q_platform (notes_query req) = None
  /\ (p_version (params req) = None -> q_tag (notes_query req) = "*")
  /\ (forall version, p_version (params req) = Some version ->
        version <> EmptyString -> q_tag (notes_query req) = ">=" +:+ version)
  /\ onServeNotes W plain TextPlain req c
     = mkRun [EvFilter (notes_query req)] c
         (Fulfilled (Some (SentText (plain (latest :: older)))))
  /\ onServeNotes W plain ApplicationJson req c
     = mkRun [EvFilter (notes_query req)] c
         (Fulfilled (Some (SentNotes (notes_merge W (latest :: older) false)
                             (toISOString W (published_at latest))))).
Proof.
  intros Hfilter. rewrite !onServeNotes_cases, Hfilter.
  split; [reflexivity|]. split; [reflexivity|]. split; [|split; [|by split]].
  - unfold notes_query. by intros ->.
  - unfold notes_query. intros version -> Hne.
    apply truthy_Some in Hne. by rewrite Hne.
Qed.

Lemma onServeNotes_merges_all_witness :
  onServeNotes (Sample.server [Sample.r120; Sample.r110])
    (fun versions => Notes.merge versions true) ApplicationJson
    (Sample.get "/notes/1.1.0" (mkParams None None None None (Some "1.1.0"))
       Sample.no_query) ∅
  = mkRun [EvFilter (mkQuery (Some "*") None ">=1.1.0")] ∅
      (Fulfilled (Some (SentNotes
                          ("Faster startup" +:+ Text.nl +:+ Text.nl +:+ "Fixes a crash")
                          "2016-03-01T00:00:00.000Z"))).
Proof.
  apply (onServeNotes_merges_all (Sample.server [Sample.r120; Sample.r110])
           (fun versions => Notes.merge versions true)
           (Sample.get "/notes/1.1.0" (mkParams None None None None (Some "1.1.0"))
              Sample.no_query) ∅ Sample.r120 [Sample.r110]).
  reflexivity.
Defined.

(** X19: when the index returns no release the notes route passes "No
    versions matching" to [next], whatever the client accepts, and when the
    index fails it passes the index's error; in both cases nothing is
    sent. *)
Theorem onServeNotes_failures (W : World) (plain : list Release -> string)
    (accepted : Accepted) (req : Request) (c : Cache) :
  (versions_filter W (notes_query req) = Fulfilled [] ->
   onServeNotes W plain accepted req c =
   mkRun [EvFilter (notes_query req); EvNext (Error "No versions matching")] c
     (Fulfilled None))
  /\ (forall e, versions_filter W (notes_query req) = Rejected e ->
        onServeNotes W plain accepted req c =
        mkRun [EvFilter (notes_query req); EvNext e] c (Fulfilled None))
  /\ (outcome (onServeNotes W plain accepted req c) = Fulfilled None
      <-> exists e, EvNext e ∈ effects (onServeNotes W plain accepted req c)).
Proof.
  rewrite onServeNotes_cases. split; [by intros ->|]. split; [by intros e ->|].
  destruct (versions_filter W (notes_query req)) as [versions|e].
  - destruct (head versions) as [latest|].
    + destruct accepted; cbn; split; try discriminate;
        try (intros [e Hin]; not_in_events Hin); try (intros _; reflexivity).
      intros _. eexists. apply list_elem_of_further, list_elem_of_here.
    + cbn. split; [|reflexivity].
      intros _. eexists. apply list_elem_of_further, list_elem_of_here.
  - cbn. split; [|reflexivity].
    intros _. eexists. apply list_elem_of_further, list_elem_of_here.
Qed.

(** ** Construction and start *)

(** X22: constructed without an options object the server throws before
    its cache is created; constructed with one, every option given is kept,
    every option left out gets its default, and the cache is created in the
    given folder or the temporary one, with the given bounds or 500 MiB and
    one hour. *)
Theorem Nuts_options {M : Type} (tmp_nuts : string) (pass : M) :
  (exists message, Options.Nuts tmp_nuts pass None = Options.Threw message)
  /\ (forall o : Options.Opts M,
        exists this_opts,
          Options.Nuts tmp_nuts pass (Some o)
          = Options.Built this_opts
              (Options.mkCacheSetup
                 (Some (default tmp_nuts (Options.cache o)))
                 (Some (default 524288000%N (Options.cacheMax o)))
                 (Some (default 3600000%N (Options.cacheMaxAge o))))
          /\ Options.backend this_opts = Some (default "github" (Options.backend o))
          /\ Options.timeout this_opts = Some (default 3600000%N (Options.timeout o))
          /\ Options.preFetch this_opts = Some (default true (Options.preFetch o))
          /\ Options.refreshSecret this_opts
             = Some (default "secret" (Options.refreshSecret o))
          /\ Options.onDownload this_opts = Some (default pass (Options.onDownload o))
          /\ Options.onAPIAccess this_opts = Some (default pass (Options.onAPIAccess o))
          /\ Options.defaults tmp_nuts pass (Some this_opts) = this_opts).
Proof.
  split; [by eexists|].
  intros [b t ca cm cma pf rs od oa]. eexists. split; [|repeat split].
  - unfold Options.Nuts, Options.defaults. cbn.
    by destruct ca, cm, cma.
  - by destruct b.
  - by destruct t.
  - by destruct pf.
  - by destruct rs.
  - by destruct od.
  - by destruct oa.
  - by destruct b, t, ca, cm, cma, pf, rs, od, oa.
Qed.

(** X23: at start the cache is initialised, then the backend; the
    releases are listed after that exactly when the backend's start
    succeeded and [preFetch] was not set to false, and a failure of the
    backend's start is the failure of [init]. *)
Theorem init_prefetch {M : Type} (tmp_nuts : string) (pass : M)
    (o : Options.Opts M) (backend_init versions_list : settled unit) :
  let this_opts := Options.defaults tmp_nuts pass (Some o) in
  let started := Options.init this_opts backend_init versions_list in
  (exists rest, started.1 = Options.CacheInit :: Options.BackendInit :: rest)
  /\ (In Options.VersionsList started.1
      <-> backend_init = Fulfilled tt /\ Options.preFetch o <> Some false)
  /\ (forall e, backend_init = Rejected e -> started.2 = Rejected e)
  /\ (backend_init = Fulfilled tt -> Options.preFetch o <> Some false ->
      started.2 = versions_list)
  /\ (backend_init = Fulfilled tt -> Options.preFetch o = Some false ->
      started.2 = Fulfilled tt).
Proof.
  cbn zeta. unfold Options.init.
  assert (Hpf : default false
                  (Options.preFetch (Options.defaults tmp_nuts pass (Some o)))
                = match Options.preFetch o with
                  | Some false => false
                  | _ => true
                  end).
  { by destruct o as [b t ca cm cma [[]|] rs od oa]. }
  rewrite Hpf. clear Hpf.
  assert (Hnot : ~ In Options.VersionsList [Options.CacheInit; Options.BackendInit]).
  { intros [?|[?|[]]]; discriminate. }
  destruct backend_init as [[]|e].
  - destruct (Options.preFetch o) as [[]|]; cbn [negb fst snd].
    + split; [by eexists|]. split; [|by repeat split].
      split; [by split|]. intros _. right. right. by left.
    + split; [by eexists|]. split; [|by repeat split].
      split; [by intros ?%Hnot|]. by intros [_ ?].
    + split; [by eexists|]. split; [|by repeat split].
      split; [by split|]. intros _. right. right. by left.
  - cbn [fst snd]. split; [by eexists|]. split.
    + split; [by intros ?%Hnot|]. by intros [? _].
    + split; [by intros e' [= ->]|]. by split.
Qed.

(** ** A download repeated *)

(** X12: when a download has fetched its asset from the backend, the same
    request made again is served from the cache: the second run pipes the
    same stream, calls the backend not at all and leaves the cache as the
    first run left it. *)
Theorem onDownload_again_from_cache (W : World) (req : Request) (c : Cache)
    (version : Release) (asset : Asset) (stream : Bytes) :
  Js.truthy (p_filename (params req)) || Js.truthy (download_platform W req) = true ->
  versions_resolve W (download_query W req) = Fulfilled version ->
  download_asset W req version = Some asset ->
  before_download W (mkHookArg req version asset) = Fulfilled tt ->
  c !! id asset = None ->
  backend_getAssetStream W asset = Fulfilled stream ->
  let first := onDownload W req c in
  let second := onDownload W req (cache_after first) in
  EvGetAssetStream asset ∈ effects first
  /\ EvPipe stream ∈ effects first
  /\ cache_after first = <[id asset := stream]> c
  /\ EvPipe stream ∈ effects second
  /\ (forall a, EvGetAssetStream a ∉ effects second)
  /\ cache_after second = cache_after first.
Proof.
  intros Hknown Hresolve Hasset Hbefore Hmiss Hstream first second.
  assert (Hcond : negb (Js.truthy (p_filename (params req)))
                  && negb (Js.truthy (download_platform W req)) = false).
  { destruct (Js.truthy (p_filename (params req))),
      (Js.truthy (download_platform W req)); try discriminate; reflexivity. }
  assert (Hfirst : first
                   = mkRun (EvResolve (download_query W req)
                            :: (asset_headers asset
                                ++ [EvGetAssetStream asset;
                                    EvCacheSet (id asset) stream; EvPipe stream])
                            ++ match after_download W (mkHookArg req version asset) with
                               | Fulfilled _ => []
                               | Rejected e => [EvNext e]
                               end)
                       (<[id asset := stream]> c) (Fulfilled tt)).
  { unfold first. rewrite onDownload_unfold, Hcond, Hresolve, Hasset. cbn zeta.
    unfold ended. by rewrite serveAsset_unfold, Hbefore, Hmiss, Hstream. }
  assert (Hsecond : second
                    = mkRun (EvResolve (download_query W req)
                             :: (asset_headers asset
                                 ++ [EvCacheGetStream (id asset); EvPipe stream])
                             ++ match after_download W (mkHookArg req version asset) with
                                | Fulfilled _ => []
                                | Rejected e => [EvNext e]
                                end)
                        (<[id asset := stream]> c) (Fulfilled tt)).
  { unfold second. rewrite Hfirst. cbn [cache_after].
    rewrite onDownload_unfold, Hcond, Hresolve, Hasset. cbn zeta.
    unfold ended. by rewrite serveAsset_unfold, Hbefore, lookup_insert_eq. }
  rewrite Hfirst, Hsecond. cbn [effects cache_after asset_headers app].
  repeat split.
  - do 3 apply list_elem_of_further. apply list_elem_of_here.
  - do 5 apply list_elem_of_further. apply list_elem_of_here.
  - do 4 apply list_elem_of_further. apply list_elem_of_here.
  - intros a Hin.
    repeat (apply elem_of_cons in Hin as [?|Hin]; [discriminate|]).
    destruct (after_download W _); not_in_events Hin.
Qed.

Lemma onDownload_again_from_cache_witness :
  EvPipe [Byte.x50; Byte.x4b; Byte.x31; Byte.x31]
    ∈ effects (onDownload (Sample.server [Sample.r120])
                 (Sample.download_platform_only "osx")
                 (cache_after (onDownload (Sample.server [Sample.r120])
                                 (Sample.download_platform_only "osx") ∅)))
  /\ forall a,
       EvGetAssetStream a
         ∉ effects (onDownload (Sample.server [Sample.r120])
                      (Sample.download_platform_only "osx")
                      (cache_after (onDownload (Sample.server [Sample.r120])
                                      (Sample.download_platform_only "osx") ∅))).
Proof.
  destruct (onDownload_again_from_cache (Sample.server [Sample.r120])
              (Sample.download_platform_only "osx") ∅ Sample.r120 Sample.osx_120
              [Byte.x50; Byte.x4b; Byte.x31; Byte.x31])
    as (_ & _ & _ & Hpiped & Hcached & _); try reflexivity.
  split; [exact Hpiped|exact Hcached].
Defined.
